(** * CitySpire external data endpoints: a shallow embedding of
    [app/external.py]

    The module proxies four third-party sources (a weather API, a job board,
    a climate site and a rental-listings API) and reshapes what they send.
    This development embeds the extraction code of each endpoint and the
    climate URL builder, together with the fragment of Python, of the JSON
    decoder and of BeautifulSoup that the code relies on:

    - Python exceptions are an explicit error monad ([outcome]); a
    [try]/[except] block is [try_except];
    - Python strings are sequences of code points; the model covers the code
    points 0..255 (one [ascii] each), on which [str.lower], [str.strip],
    [str.split] and [int] are written out exactly as CPython defines them;
    - decoded JSON is the inductive type [json], objects being finite maps;
    - a parsed HTML document is a tree of [node]s, searched in document
    order as BeautifulSoup's [find_all] and [find] do.

    The network request, the HTML and JSON parsers and [validate_city] are
    outside the file that is modelled: every endpoint is taken from the
    parsed response on. *)

From Stdlib Require Import ZArith Ascii String List Bool Lia DecimalString.
From stdpp Require Import base option list gmap strings fin_maps.

Set Warnings "-register-all".
#[local] Open Scope string_scope.

(** ** Exceptions and the error monad *)

(** A dictionary key: decoded JSON objects have string keys, but the code
    also subscripts with integers. *)
Inductive pykey : Type :=
| KStr (s : string)
| KInt (i : Z).

(** The exceptions of the program: the built-in ones that the modelled
    operations raise, and FastAPI's [HTTPException], which the module imports
    and which is how a handler answers with an error status of its choice. *)
Inductive pyexn : Type :=
| KeyError (k : pykey)
| IndexError
| TypeError
| AttributeError
| ValueError
| HTTPException (status_code : Z).

(** The result of running a piece of Python: a value, or an exception that
    propagates to the caller. *)
Inductive outcome (A : Type) : Type :=
| Returned (a : A)
| Raised (e : pyexn).
Arguments Returned {A} a.
Arguments Raised {A} e.

#[global] Instance outcome_ret : MRet outcome := fun A a => Returned a.
#[global] Instance outcome_bind : MBind outcome := fun A B f m =>
  match m with
  | Returned a => f a
  | Raised e => Raised e
  end.

(** [try: body except <catches>: handler]. *)
Definition try_except {A} (body : outcome A) (catches : pyexn -> bool)
    (handler : outcome A) : outcome A :=
  match body with
  | Returned a => Returned a
  | Raised e => if catches e then handler else Raised e
  end.

Definition is_AttributeError (e : pyexn) : bool :=
  match e with AttributeError => true | _ => false end.

Definition is_Returned {A} (o : outcome A) : Prop := exists a, o = Returned a.
Definition is_Raised {A} (o : outcome A) : Prop := exists e, o = Raised e.

(** ** Python strings *)

Module Str.

Definition code (c : ascii) : N := N_of_ascii c.

(** [str.isspace] on one code point below 256. *)
Definition isspace (c : ascii) : bool :=
  let n := code c in
  ((9 <=? n) && (n <=? 13) || (28 <=? n) && (n <=? 31) || (n =? 32)
   || (n =? 133) || (n =? 160))%N.

(** [str.lower] on one code point below 256: the ASCII capitals and the
    Latin-1 capitals (all of 192..222 but the multiplication sign). *)
Definition lower_char (c : ascii) : ascii :=
  let n := code c in
  if ((65 <=? n) && (n <=? 90)
      || (192 <=? n) && (n <=? 222) && negb (n =? 215))%N
  then ascii_of_N (n + 32) else c.

Fixpoint map (f : ascii -> ascii) (s : string) : string :=
  match s with
  | EmptyString => EmptyString
  | String c s' => String (f c) (map f s')
  end.

Definition lower (s : string) : string := map lower_char s.

Fixpoint lstrip (s : string) : string :=
  match s with
  | EmptyString => EmptyString
  | String c s' => if isspace c then lstrip s' else s
  end.

Fixpoint rstrip (s : string) : string :=
  match s with
  | EmptyString => EmptyString
  | String c s' =>
      match rstrip s' with
      | EmptyString => if isspace c then EmptyString else String c EmptyString
      | r => String c r
      end
  end.

(** [s.strip()]: leading and trailing whitespace removed. *)
Definition strip (s : string) : string := rstrip (lstrip s).

(** [c in s] for a one-character [c]. *)
Fixpoint contains (c : ascii) (s : string) : bool :=
  match s with
  | EmptyString => false
  | String d s' => Ascii.eqb d c || contains c s'
  end.

(** [sep.join(parts)]. *)
Fixpoint join (sep : string) (parts : list string) : string :=
  match parts with
  | [] => EmptyString
  | [p] => p
  | p :: ps => p +:+ sep +:+ join sep ps
  end.

(** [s.split()]: the maximal runs of non-whitespace characters.  [cur] is
    the run being read, reversed. *)
Fixpoint split_go (cur : list ascii) (s : string) : list string :=
  let flush rest :=
    match cur with
    | [] => rest
    | _ => string_of_list_ascii (rev cur) :: rest
    end in
  match s with
  | EmptyString => flush []
  | String c s' =>
      if isspace c then flush (split_go [] s') else split_go (c :: cur) s'
  end.
Definition split (s : string) : list string := split_go [] s.

(** The value of a decimal digit. *)
Definition digit (c : ascii) : option Z :=
  let n := code c in
  if ((48 <=? n) && (n <=? 57))%N then Some (Z.of_N n - 48)%Z else None.

(** The digits of an integer literal as [int] reads them: one or more
    digits, single underscores allowed between two digits.  [acc] is the
    value read so far and [after_digit] tells whether the previous
    character was a digit. *)
Fixpoint digits_go (acc : Z) (after_digit : bool) (s : string) : option Z :=
  match s with
  | EmptyString => if after_digit then Some acc else None
  | String c s' =>
      match digit c with
      | Some d => digits_go (10 * acc + d) true s'
      | None =>
          if Ascii.eqb c "_" && after_digit then digits_go acc false s'
          else None
      end
  end.

(** [int(s)] for an [s] that has been stripped: an optional sign and the
    digits; anything else is a [ValueError].  Integers are unbounded. *)
Definition int (s : string) : outcome Z :=
  let body sign rest :=
    match digits_go 0 false rest with
    | Some v => Returned (sign * v)%Z
    | None => Raised ValueError
    end in
  match s with
  | String "-" rest => body (-1)%Z rest
  | String "+" rest => body 1%Z rest
  | _ => body 1%Z s
  end.

End Str.

(** ** Decoded JSON *)

(** What [response.json()] yields.  A float is carried by its [repr]: the
    code never computes with one.  Objects are finite maps from strings. *)
Inductive json : Type :=
| JNull
| JBool (b : bool)
| JInt (z : Z)
| JFloat (repr : string)
| JStr (s : string)
| JArr (items : list json)
| JObj (fields : gmap string json).

(** [seq[i]] on a sequence of length [len]: a negative index counts from
    the end, an index outside [-len, len) raises [IndexError]. *)
Definition seq_index {A} (l : list A) (i : Z) : outcome A :=
  let len := Z.of_nat (length l) in
  let j := if (i <? 0)%Z then (i + len)%Z else i in
  if ((0 <=? j) && (j <? len))%Z then
    match l !! Z.to_nat j with
    | Some x => Returned x
    | None => Raised IndexError
    end
  else Raised IndexError.

(** The subscription [v[k]] on a decoded JSON value. *)
Definition getitem (v : json) (k : pykey) : outcome json :=
  match v, k with
  | JObj fields, KStr s =>
      match fields !! s with
      | Some x => Returned x
      | None => Raised (KeyError k)
      end
  | JObj _, KInt _ => Raised (KeyError k)
  | JArr items, KInt i => seq_index items i
  | JStr s, KInt i =>
      c ← seq_index (list_ascii_of_string s) i;
      Returned (JStr (String c EmptyString))
  | _, _ => Raised TypeError
  end.

(** A chain of subscriptions [v[k1][k2]...], evaluated left to right. *)
Fixpoint subscript (v : json) (ks : list pykey) : outcome json :=
  match ks with
  | [] => Returned v
  | k :: ks' => x ← getitem v k; subscript x ks'
  end.

(** [for x in items: body], the loop state threaded through; an exception
    raised by the body ends the loop and propagates. *)
Fixpoint for_each {A S} (body : A -> S -> outcome S) (items : list A) (st : S)
    : outcome S :=
  match items with
  | [] => Returned st
  | x :: rest => st' ← body x st; for_each body rest st'
  end.

(** ** Parsed HTML (BeautifulSoup) *)

(** An attribute value: a string, or the list of tokens of a multi-valued
    attribute such as [class]. *)
Inductive attr_value : Type :=
| AttrStr (s : string)
| AttrList (tokens : list string).

Inductive node : Type :=
| Text (s : string)
| Comment (s : string)
| Tag (name : string) (attrs : gmap string attr_value) (contents : list node).

Module Soup.

(** The nodes below [n] in document order. *)
Fixpoint descendants (n : node) : list node :=
  match n with
  | Tag _ _ contents =>
      (fix below (cs : list node) : list node :=
         match cs with
         | [] => []
         | c :: cs' => c :: descendants c ++ below cs'
         end) contents
  | _ => []
  end.

(** Whether an attribute value matches the string searched for: equality
    for a plain value; for a token list, one token or the tokens joined by
    single spaces; an absent attribute matches the empty string only. *)
Definition matches_value (v : option attr_value) (target : string) : bool :=
  match v with
  | None => String.eqb target ""
  | Some (AttrStr s) => String.eqb s target
  | Some (AttrList tokens) =>
      existsb (fun t => String.eqb t target) tokens
      || String.eqb (Str.join " " tokens) target
  end.

Definition matches (name : string) (attrs : list (string * string)) (n : node)
    : bool :=
  match n with
  | Tag nm at_ _ =>
      String.eqb nm name
      && forallb (fun kv => matches_value (at_ !! kv.1) kv.2) attrs
  | _ => false
  end.

(** [root.find_all(name, attrs)]. *)
Definition find_all (root : node) (name : string) (attrs : list (string * string))
    : list node :=
  filter (fun n => matches name attrs n = true) (descendants root).

(** [root.find(name, attrs)]: the first match, or [None]. *)
Definition find (root : node) (name : string) (attrs : list (string * string))
    : option node :=
  head (find_all root name attrs).

(** [find_all(name, cls)] and [find(name, cls)] with a string as second
    argument search the [class] attribute. *)
Definition by_class (cls : string) : list (string * string) := [("class", cls)].

(** [n.text]: the text nodes below [n], concatenated; comments are left
    out. *)
Fixpoint text (n : node) : string :=
  match n with
  | Text s => s
  | Comment _ => EmptyString
  | Tag _ _ contents =>
      (fix go (cs : list node) : string :=
         match cs with
         | [] => EmptyString
         | c :: cs' => text c +:+ go cs'
         end) contents
  end.

(** [n.get(key)]. *)
Definition get (n : node) (key : string) : option attr_value :=
  match n with
  | Tag _ at_ _ => at_ !! key
  | _ => None
  end.

(** Reading an attribute or calling a method on the result of a search:
    on [None] it raises [AttributeError]. *)
Definition deref (o : option node) : outcome node :=
  match o with
  | Some n => Returned n
  | None => Raised AttributeError
  end.

End Soup.

(** ** [current_weather]: the weather extraction (lines 49-62) *)

Record weather_report : Type := {
  Date : string;
  Description : json;
  Temperature : string;
  High_Today : string;
  Low_Today : string;
  Humidity : string;
  Wind_Speed : string;
  Feels_Like : string;
  Pressure : string
}.

(** The degree sign, code point 176. *)
Definition degree_sign : string := String (ascii_of_N 176) EmptyString.

Section Weather.

(** The built-in [str] on a decoded JSON value.  It never raises; how it
    renders floats and containers plays no part in what follows. *)
Variable str : json -> string.
(** [datetime.datetime.today().strftime("%m/%d/%y")]. *)
Variable today : string.

(** The body of the handler from [data = data.json()] on; [data] is the
    decoded payload. *)
Definition current_weather (data : json) : outcome weather_report :=
  main ← getitem data (KStr "main");
  description ← subscript data [KStr "weather"; KInt 0; KStr "description"];
  temp ← getitem main (KStr "temp");
  temp_max ← getitem main (KStr "temp_max");
  temp_min ← getitem main (KStr "temp_min");
  humidity ← getitem main (KStr "humidity");
  speed ← subscript data [KStr "wind"; KStr "speed"];
  feels_like ← getitem main (KStr "feels_like");
  pressure ← getitem main (KStr "pressure");
  Returned {|
    Date := today;
    Description := description;
    Temperature := str temp +:+ " F" +:+ degree_sign;
    High_Today := str temp_max +:+ " F" +:+ degree_sign;
    Low_Today := str temp_min +:+ " F" +:+ degree_sign;
    Humidity := str humidity +:+ "%";
    Wind_Speed := str speed +:+ " mph";
    Feels_Like := str feels_like +:+ " F" +:+ degree_sign;
    Pressure := str pressure +:+ " hPa"
  |}.

End Weather.

(** The subscriptions that [current_weather] performs on the payload, in
    the order in which it evaluates them: the keys the extraction expects. *)
Definition expected_keys : list (list pykey) :=
  [ [KStr "main"];
    [KStr "weather"; KInt 0; KStr "description"];
    [KStr "main"; KStr "temp"];
    [KStr "main"; KStr "temp_max"];
    [KStr "main"; KStr "temp_min"];
    [KStr "main"; KStr "humidity"];
    [KStr "wind"; KStr "speed"];
    [KStr "main"; KStr "feels_like"];
    [KStr "main"; KStr "pressure"] ].

(** An expected key is absent from the payload: one of the subscriptions
    does not yield a value. *)
Definition key_absent (data : json) : Prop :=
  exists ks, ks ∈ expected_keys /\ is_Raised (subscript data ks).

(** The handler answers with an upstream error: it raises
    [HTTPException(502)]. *)
Definition upstream_error {A} (o : outcome A) : Prop :=
  o = Raised (HTTPException 502).

(** ** [job_opportunities] and [get_record]: the job board scraper *)

Record job_record : Type := {
  Job_Title : option attr_value;
  Company : string;
  Location : option attr_value;
  Date_Posted : string;
  Extract_Date : string;
  Job_Description : string;
  Salary : string;
  Job_Url : string
}.

(** ['https://www.indeed.com' + v] for the result [v] of [Tag.get]: only a
    string can be added to a string. *)
Definition str_add (prefix : string) (v : option attr_value) : outcome string :=
  match v with
  | Some (AttrStr s) => Returned (prefix +:+ s)
  | _ => Raised TypeError
  end.

(** [o.text.strip()] for the result [o] of a search. *)
Definition text_strip (o : option node) : outcome string :=
  n ← Soup.deref o; Returned (Str.strip (Soup.text n)).

Section Jobs.

(** [datetime.datetime.today().strftime('%Y-%m-%d')]. *)
Variable today : string.

Definition get_record (card : node) : outcome job_record :=
  h2 ← Soup.deref (Soup.find card "h2" []);
  atag ← Soup.deref (Soup.find h2 "a" []);
  let job_title := Soup.get atag "title" in
  company ← text_strip (Soup.find card "span" (Soup.by_class "company"));
  loc ← Soup.deref (Soup.find card "div" (Soup.by_class "recJobLoc"));
  let job_location := Soup.get loc "data-rc-loc" in
  job_summary ← text_strip (Soup.find card "div" (Soup.by_class "summary"));
  post_date ← text_strip (Soup.find card "span" (Soup.by_class "date"));
  salary ← try_except
      (text_strip (Soup.find card "span" (Soup.by_class "salarytext")))
      is_AttributeError
      (Returned EmptyString);
  let extract_date := today in
  job_url ← str_add "https://www.indeed.com" (Soup.get atag "href");
  Returned {|
    Job_Title := job_title;
    Company := company;
    Location := job_location;
    Date_Posted := post_date;
    Extract_Date := extract_date;
    Job_Description := job_summary;
    Salary := salary;
    Job_Url := job_url
  |}.

Record job_results : Type := {
  Search_Results : string;
  Top_10_Listings : list job_record
}.

(** [lst[-2:]]. *)
Definition last_two {A} (l : list A) : list A := drop (length l - 2) l.

(** The body of the handler from the parsed page ([soup]) on. *)
Definition job_opportunities (soup : node) : outcome job_results :=
  let cards := Soup.find_all soup "div" (Soup.by_class "jobsearch-SerpJobCard") in
  records ← for_each
      (fun card records => record ← get_record card; Returned (records ++ [record])%list)
      cards [];
  jobs ← try_except
      (total_jobs ← text_strip (Soup.find soup "div" [("id", "searchCountPages")]);
       let total := last_two (Str.split total_jobs) in
       Returned (Str.join " " total))
      is_AttributeError
      (Returned EmptyString);
  Returned {| Search_Results := jobs; Top_10_Listings := records |}.

End Jobs.

Definition get_url (position location : string) : string :=
  "https://www.indeed.com/jobs?q=" +:+ position +:+ "&l=" +:+ location.

(** ** [generate_climate_url] and [get_forecast]: the climate scraper *)

(** The inner loop of [generate_climate_url]:
    [for index, value in enumerate(input_str_list)], which overwrites the
    list it iterates over.  The iterator reads the list as it is when it
    reaches [index] and stops at its end; the list keeps its length, so
    [steps], the length at the start, bounds the number of rounds. *)
Fixpoint replace_loop (steps index : nat) (input_str_list : list ascii)
    : list ascii :=
  match steps with
  | 0 => input_str_list
  | S steps' =>
      match input_str_list !! index with
      | None => input_str_list
      | Some value =>
          replace_loop steps' (S index)
            (if Ascii.eqb value " "
             then <[index := "-"%char]> input_str_list
             else input_str_list)
      end
  end.

(** One round of the outer loop: what is appended to [cleaned_input] for
    the string [input]. *)
Definition clean_string (input : string) : string :=
  let input := Str.strip (Str.lower input) in
  if Str.contains " " input then
    let input_str_list := list_ascii_of_string input in
    string_of_list_ascii
      (replace_loop (length input_str_list) 0 input_str_list)
  else input.

Definition generate_climate_url (city state : string) : string :=
  let cleaned_input :=
    foldl (fun cleaned_input input => (cleaned_input ++ [clean_string input])%list)
      [] [city; state] in
  "https://www.usclimatedata.com/climate/"
    +:+ cleaned_input !!! 0%nat +:+ "/" +:+ cleaned_input !!! 1%nat
    +:+ "/united-states/".

(** The normalisation in the words of the specification: lowercase, trim,
    replace every space by a hyphen. *)
Definition hyphenate (c : ascii) : ascii :=
  if Ascii.eqb c " " then "-"%char else c.
Definition normalize_spec (s : string) : string :=
  Str.map hyphenate (Str.strip (Str.lower s)).

(** A string that the normalisation leaves alone: lowercase, trimmed and
    free of spaces. *)
Definition normalized (s : string) : Prop :=
  Str.lower s = s /\ Str.strip s = s /\ Str.contains " " s = false.

(** The first character of a string is not whitespace. *)
Definition head_ok (s : string) : bool :=
  match s with
  | EmptyString => true
  | String c _ => negb (Str.isspace c)
  end.

Record climate : Type := {
  avg_high : list Z;
  avg_low : list Z
}.

(** [for temp in cells[:12]: monthly.append(int(temp.text.strip()))]. *)
Definition cell_value (temp : node) : outcome Z :=
  Str.int (Str.strip (Soup.text temp)).
Definition monthly (cells : list node) : outcome (list Z) :=
  for_each
    (fun temp monthly => v ← cell_value temp; Returned (monthly ++ [v])%list)
    (take 12 cells) [].

(** The body of the handler from the parsed page ([soup]) on. *)
Definition get_forecast (soup : node) : outcome climate :=
  let high_temp := Soup.find_all soup "td" (Soup.by_class "high text-right") in
  avg_high_monthly ← monthly high_temp;
  let low_temp := Soup.find_all soup "td" (Soup.by_class "low text-right") in
  avg_low_monthly ← monthly low_temp;
  Returned {| avg_high := avg_high_monthly; avg_low := avg_low_monthly |}.

(** ** [rental_listing]: the rental listings extraction (lines 277-328) *)

Record rental : Type := {
  Latitude : json;
  Longitude : json;
  Street_Address : json;
  City : json;
  State : json;
  Bedrooms : json;
  Bathrooms : json;
  Cats_Allowed : json;
  Dogs_Allowed : json;
  List_Price : json;
  Ammenities : json;
  Photos : json
}.

(** [v != None]. *)
Definition not_None (v : json) : bool :=
  match v with JNull => false | _ => true end.

(** [range(n)]. *)
Definition range (n : Z) : list Z := seqZ 0 n.

(** One round of the loop: the dictionary [elements] built for index [i].
    Every field is read by subscripting [response[i]] anew, as the code
    does. *)
Definition rental_elements (response : json) (i : Z) : outcome rental :=
  let entry ks := subscript response (KInt i :: ks) in
  lat ← entry [KStr "location"; KStr "address"; KStr "coordinate"; KStr "lat"];
  lon ← entry [KStr "location"; KStr "address"; KStr "coordinate"; KStr "lon"];
  line ← entry [KStr "location"; KStr "address"; KStr "line"];
  city ← entry [KStr "location"; KStr "address"; KStr "city"];
  state ← entry [KStr "location"; KStr "address"; KStr "state"];
  pet_policy ← entry [KStr "pet_policy"];
  baths ← try_except (entry [KStr "description"; KStr "baths_max"])
      is_AttributeError (Returned (JInt 0));
  bedrooms ← try_except (entry [KStr "description"; KStr "beds_max"])
      is_AttributeError (Returned (JInt 0));
  cats_allowed ←
    (if not_None pet_policy then entry [KStr "pet_policy"; KStr "cats"]
     else Returned (JStr "Unknown"));
  dogs_allowed ←
    (if not_None pet_policy then entry [KStr "pet_policy"; KStr "dogs"]
     else Returned (JStr "Unknown"));
  list_price ← entry [KStr "list_price_max"];
  ammenities ← try_except (entry [KStr "tags"])
      is_AttributeError (Returned (JArr []));
  photos ← try_except (entry [KStr "photos"])
      is_AttributeError (Returned JNull);
  Returned {|
    Latitude := lat;
    Longitude := lon;
    Street_Address := line;
    City := city;
    State := state;
    Bedrooms := bedrooms;
    Bathrooms := baths;
    Cats_Allowed := cats_allowed;
    Dogs_Allowed := dogs_allowed;
    List_Price := list_price;
    Ammenities := ammenities;
    Photos := photos
  |}.

(** The handler from [response = ...['data']['results']] on. *)
Definition rental_listing (response : json) (limit : Z) : outcome (list rental) :=
  for_each
    (fun i rental_list =>
       elements ← rental_elements response i;
       Returned (rental_list ++ [elements])%list)
    (range limit) [].

(** ** Notions used to state the properties *)

(** The values of [f] on the items of a list, in order, or the first
    exception that [f] raises. *)
Fixpoint mapM {A B} (f : A -> outcome B) (items : list A) : outcome (list B) :=
  match items with
  | [] => Returned []
  | x :: rest => v ← f x; vs ← mapM f rest; Returned (v :: vs)
  end.

(** The exceptions that a failed subscription raises. *)
Definition lookup_error (e : pyexn) : bool :=
  match e with
  | KeyError _ | IndexError | TypeError => true
  | _ => false
  end.

Definition string_key (k : pykey) : bool :=
  match k with KStr _ => true | KInt _ => false end.

(** A job card lacks one of the elements that [get_record] reads without
    a guard: the anchor of the title ([card.h2.a]), the company span, the
    location div, the summary div or the date span. *)
Definition lacks_required (card : node) : Prop :=
  Soup.find card "h2" [] = None
  \/ (exists h2, Soup.find card "h2" [] = Some h2 /\ Soup.find h2 "a" [] = None)
  \/ Soup.find card "span" (Soup.by_class "company") = None
  \/ Soup.find card "div" (Soup.by_class "recJobLoc") = None
  \/ Soup.find card "div" (Soup.by_class "summary") = None
  \/ Soup.find card "span" (Soup.by_class "date") = None.

(** The paths that one round of [rental_listing] reads below the entry
    [response[i]], the members of pet_policy apart. *)
Definition rental_paths : list (list pykey) :=
  [ [KStr "location"; KStr "address"; KStr "coordinate"; KStr "lat"];
    [KStr "location"; KStr "address"; KStr "coordinate"; KStr "lon"];
    [KStr "location"; KStr "address"; KStr "line"];
    [KStr "location"; KStr "address"; KStr "city"];
    [KStr "location"; KStr "address"; KStr "state"];
    [KStr "pet_policy"];
    [KStr "description"; KStr "baths_max"];
    [KStr "description"; KStr "beds_max"];
    [KStr "list_price_max"];
    [KStr "tags"];
    [KStr "photos"] ].

(** ** Sample inputs *)

(** An object from its fields. *)
Definition obj (fields : list (string * json)) : json := JObj (list_to_map fields).

(** One entry of the provider's [results] array, with the given pet policy
    and description. *)
Definition listing (pet_policy description : json) : json :=
  obj [ ("location", obj [ ("address", obj [
            ("coordinate", obj [ ("lat", JFloat "40.7128"); ("lon", JFloat "-74.006") ]);
            ("line", JStr "1 Main St");
            ("city", JStr "New York");
            ("state", JStr "New York") ]) ]);
        ("pet_policy", pet_policy);
        ("description", description);
        ("list_price_max", JInt 2500);
        ("tags", JArr [JStr "dishwasher"]);
        ("photos", JArr []) ].

Definition one_bed : json := obj [ ("baths_max", JInt 1); ("beds_max", JInt 2) ].

Definition cats_only : json := obj [ ("cats", JBool true); ("dogs", JBool false) ].

(** What the extraction makes of [listing pet_policy one_bed], the pet
    fields apart. *)
Definition listed (cats_allowed dogs_allowed : json) : rental := {|
  Latitude := JFloat "40.7128";
  Longitude := JFloat "-74.006";
  Street_Address := JStr "1 Main St";
  City := JStr "New York";
  State := JStr "New York";
  Bedrooms := JInt 2;
  Bathrooms := JInt 1;
  Cats_Allowed := cats_allowed;
  Dogs_Allowed := dogs_allowed;
  List_Price := JInt 2500;
  Ammenities := JArr [JStr "dishwasher"];
  Photos := JArr []
|}.

(** An entry whose address has no coordinate, as the provider sends for a
    listing that it could not locate. *)
Definition unlocated_listing : json :=
  obj [ ("location", obj [ ("address", obj [
            ("coordinate", JNull);
            ("line", JStr "1 Main St");
            ("city", JStr "New York");
            ("state", JStr "New York") ]) ]);
        ("pet_policy", JNull);
        ("description", one_bed);
        ("list_price_max", JInt 2500);
        ("tags", JArr []);
        ("photos", JArr []) ].

(** Entries without [tags] and without [photos]. *)
Definition untagged_listing : json :=
  match listing JNull one_bed with
  | JObj fields => JObj (delete "tags" fields)
  | v => v
  end.
Definition unpictured_listing : json :=
  match listing JNull one_bed with
  | JObj fields => JObj (delete "photos" fields)
  | v => v
  end.

(** [str] on the scalars of a payload; containers, whose rendering is not
    modelled, are abbreviated. *)
Definition str_scalar (v : json) : string :=
  match v with
  | JNull => "None"
  | JBool true => "True"
  | JBool false => "False"
  | JInt z => NilZero.string_of_int (Z.to_int z)
  | JFloat repr => repr
  | JStr s => s
  | JArr _ => "[...]"
  | JObj _ => "{...}"
  end.

(** A payload of the weather provider. *)
Definition weather_payload : json :=
  obj [ ("weather", JArr [ obj [ ("description", JStr "clear sky") ] ]);
        ("main", obj [ ("temp", JFloat "72.5"); ("temp_max", JFloat "75.2");
                       ("temp_min", JInt 68); ("humidity", JInt 40);
                       ("feels_like", JFloat "71.8"); ("pressure", JInt 1016) ]);
        ("wind", obj [ ("speed", JFloat "4.61") ]) ].

(** The same payload with an empty [weather] array. *)
Definition weather_payload_no_conditions : json :=
  match weather_payload with
  | JObj fields => JObj (<["weather" := JArr []]> fields)
  | v => v
  end.

(** A page of the climate site: thirteen cells of class [high text-right]
    and three of class [low text-right]. *)
Definition cell (cls text : string) : node :=
  Tag "td" {[ "class" := AttrList [cls; "text-right"] ]} [Text text].
Definition climate_row (cells : list node) : node :=
  Tag "tr" ∅ (Tag "td" {[ "class" := AttrList ["align_left"] ]} [Text "Av."] :: cells).
Definition climate_page : node :=
  Tag "[document]" ∅ [ Tag "table" ∅ (
    [ climate_row [cell "high" " 40 "; cell "low" "26"];
      climate_row [cell "high" "42"; cell "low" "-3"];
      climate_row [cell "high" "50"; cell "low" " +35"] ]
    ++ ((fun t => climate_row [cell "high" t]) <$>
        ["61"; "71"; "79"; "84"; "83"; "75"; "64"; "54"; "44"; "1_000"]))%list ].
Definition climate_page_forecast : climate := {|
  avg_high := [40; 42; 50; 61; 71; 79; 84; 83; 75; 64; 54; 44]%Z;
  avg_low := [26; -3; 35]%Z
|}.

(** The parts of a job card of the job board, and cards made of them. *)
Definition title_anchor (title : string) : node :=
  Tag "a" (list_to_map [("href", AttrStr "/rc/clk?jk=1"); ("title", AttrStr title)])
    [Text title].
Definition title_h2 (title : string) : node :=
  Tag "h2" {[ "class" := AttrList ["title"] ]} [title_anchor title].
Definition company_span : node :=
  Tag "span" {[ "class" := AttrList ["company"] ]} [Text "  Acme "].
Definition location_div : node :=
  Tag "div" (list_to_map [("class", AttrList ["recJobLoc"]);
                          ("data-rc-loc", AttrStr "New York, NY")]) [].
Definition summary_div : node :=
  Tag "div" {[ "class" := AttrList ["summary"] ]}
    [Tag "ul" ∅ [Tag "li" ∅ [Text " Build models."]; Comment "more"]].
Definition date_span : node :=
  Tag "span" {[ "class" := AttrList ["date"] ]} [Text "1 day ago"].
Definition salary_span : node :=
  Tag "span" {[ "class" := AttrList ["salarytext"] ]} [Text " $100,000 a year"].

Definition job_card (title : string) (salary : list node) : node :=
  Tag "div" {[ "class" := AttrList ["jobsearch-SerpJobCard"; "unifiedRow"] ]}
    ([ title_h2 title;
       Tag "div" {[ "class" := AttrList ["sjcl"] ]} [company_span; location_div];
       summary_div;
       date_span ] ++ salary)%list.

(** A card without the company span. *)
Definition job_card_no_company : node :=
  Tag "div" {[ "class" := AttrList ["jobsearch-SerpJobCard"] ]}
    [ title_h2 "Analyst"; location_div; summary_div; date_span ].

Definition job_page (cards : list node) : node :=
  Tag "[document]" ∅
    [ Tag "div" {[ "id" := AttrStr "searchCountPages" ]} [Text " Page 1 of 2,345 jobs"];
      Tag "td" {[ "id" := AttrStr "resultsCol" ]} cards ].

(** A result page with eleven job cards. *)
Definition job_page_eleven : node :=
  job_page ((fun title => job_card title []) <$>
    ["Job 1"; "Job 2"; "Job 3"; "Job 4"; "Job 5"; "Job 6"; "Job 7"; "Job 8";
     "Job 9"; "Job 10"; "Job 11"]).

(** What [current_weather] makes of [weather_payload] on 3 November 2026. *)
Definition weather_report_sample : weather_report := {|
  Date := "11/03/26";
  Description := JStr "clear sky";
  Temperature := "72.5 F" +:+ degree_sign;
  High_Today := "75.2 F" +:+ degree_sign;
  Low_Today := "68 F" +:+ degree_sign;
  Humidity := "40%";
  Wind_Speed := "4.61 mph";
  Feels_Like := "71.8 F" +:+ degree_sign;
  Pressure := "1016 hPa"
|}.

(** A card whose title anchor has no [href], with a salary. *)
Definition bare_anchor : node :=
  Tag "a" {[ "title" := AttrStr "Analyst" ]} [Text "Analyst"].
Definition job_card_no_href : node :=
  Tag "div" {[ "class" := AttrList ["jobsearch-SerpJobCard"] ]}
    [ Tag "h2" ∅ [bare_anchor]; company_span; location_div; summary_div;
      date_span; salary_span ].

(** A result page without the element that counts the results. *)
Definition uncounted_page (cards : list node) : node :=
  Tag "[document]" ∅ [ Tag "td" {[ "id" := AttrStr "resultsCol" ]} cards ].

(** The record of [job_card title salary], with the given salary text. *)
Definition job_card_record (title salary : string) : job_record := {|
  Job_Title := Some (AttrStr title);
  Company := "Acme";
  Location := Some (AttrStr "New York, NY");
  Date_Posted := "1 day ago";
  Extract_Date := "2026-11-03";
  Job_Description := "Build models.";
  Salary := salary;
  Job_Url := "https://www.indeed.com/rc/clk?jk=1"
|}.

(** A page of the climate site whose second cell of highs holds no
    figure. *)
Definition climate_page_gap : node :=
  Tag "[document]" ∅ [ Tag "table" ∅
    [ climate_row [cell "high" "40"; cell "low" "26"];
      climate_row [cell "high" "N/A"; cell "low" "28"] ] ].

(** An entry of the provider's array without the [pet_policy] key. *)
Definition unpoliced_listing : json :=
  match listing JNull one_bed with
  | JObj fields => JObj (delete "pet_policy" fields)
  | v => v
  end.

(** * Properties *)

(** ** Facts about the string operations *)

Example lower_ex : Str.lower "New York" = "new york".
Proof. reflexivity. Qed.

Example strip_ex : Str.strip "  a b  " = "a b".
Proof. reflexivity. Qed.

Example split_ex :
  Str.split " Page 1 of  2,345 jobs " = ["Page"; "1"; "of"; "2,345"; "jobs"].
Proof. reflexivity. Qed.

Example int_ex :
  Str.int "-1_2" = Returned (-12)%Z /\ Str.int "1__2" = Raised ValueError
  /\ Str.int "0012" = Returned 12%Z /\ Str.int "" = Raised ValueError
  /\ Str.int "12_" = Raised ValueError /\ Str.int "+_1" = Raised ValueError.
Proof. repeat split; reflexivity. Qed.

(** A property of one character, settled on each of the 256 code points. *)
Ltac each_char c := destruct c as [[] [] [] [] [] [] [] []]; try reflexivity.

Lemma lower_char_idem c : Str.lower_char (Str.lower_char c) = Str.lower_char c.
Proof. each_char c. Qed.

Lemma isspace_lower_char c : Str.isspace (Str.lower_char c) = Str.isspace c.
Proof. each_char c. Qed.

Lemma lower_char_hyphenate c :
  Str.lower_char (hyphenate c) = hyphenate (Str.lower_char c).
Proof. each_char c. Qed.

Lemma hyphenate_idem c : hyphenate (hyphenate c) = hyphenate c.
Proof. each_char c. Qed.

Lemma hyphenate_nonspace c : Str.isspace c = false -> hyphenate c = c.
Proof. each_char c; discriminate. Qed.

Lemma map_map f g s : Str.map f (Str.map g s) = Str.map (fun c => f (g c)) s.
Proof. induction s as [|c s IH]; simpl; [done | by rewrite IH]. Qed.

Lemma map_ext f g s : (forall c, f c = g c) -> Str.map f s = Str.map g s.
Proof. intros E. induction s as [|c s IH]; simpl; [done | by rewrite E, IH]. Qed.

Lemma map_nonempty f s : s <> EmptyString -> Str.map f s <> EmptyString.
Proof. by destruct s. Qed.

Lemma lower_idem s : Str.lower (Str.lower s) = Str.lower s.
Proof. unfold Str.lower. rewrite map_map. apply map_ext, lower_char_idem. Qed.

Lemma lower_lstrip s : Str.lower (Str.lstrip s) = Str.lstrip (Str.lower s).
Proof.
  induction s as [|c s IH]; simpl; [done|].
  rewrite isspace_lower_char. by destruct (Str.isspace c).
Qed.

Lemma lower_rstrip s : Str.lower (Str.rstrip s) = Str.rstrip (Str.lower s).
Proof.
  induction s as [|c s IH]; simpl; [done|].
  fold (Str.lower s). rewrite <- IH, isspace_lower_char.
  destruct (Str.rstrip s); simpl; [by destruct (Str.isspace c) | done].
Qed.

Lemma lower_strip s : Str.lower (Str.strip s) = Str.strip (Str.lower s).
Proof. unfold Str.strip. by rewrite lower_rstrip, lower_lstrip. Qed.

Lemma lstrip_length s : String.length (Str.lstrip s) <= String.length s.
Proof.
  induction s as [|c s IH]; simpl; [lia|].
  destruct (Str.isspace c); simpl; lia.
Qed.

Lemma lstrip_fixed s : Str.lstrip s = s <-> head_ok s = true.
Proof.
  destruct s as [|c s]; simpl; [done|].
  destruct (Str.isspace c) eqn:E; simpl; [|done].
  split; [|done]. intros H.
  pose proof (lstrip_length s) as Hl. rewrite H in Hl. simpl in Hl. lia.
Qed.

Lemma head_ok_lstrip s : head_ok (Str.lstrip s) = true.
Proof.
  induction s as [|c s IH]; simpl; [done|].
  destruct (Str.isspace c) eqn:E; simpl; [done | by rewrite E].
Qed.

Lemma head_ok_rstrip s : head_ok s = true -> head_ok (Str.rstrip s) = true.
Proof.
  destruct s as [|c s]; simpl; [done|]. intros H.
  destruct (Str.rstrip s); simpl; [|done].
  destruct (Str.isspace c) eqn:E; simpl; [done | by rewrite E].
Qed.

(** What it takes for [rstrip] to leave a non-empty string alone. *)
Lemma rstrip_fixed_cons c s :
  Str.rstrip (String c s) = String c s ->
  (s = EmptyString /\ Str.isspace c = false)
  \/ (s <> EmptyString /\ Str.rstrip s = s).
Proof.
  simpl. destruct (Str.rstrip s) as [|d r] eqn:E.
  - destruct (Str.isspace c); [done|]. intros [= <-]. by left.
  - intros [= <-]. by right.
Qed.

Lemma rstrip_idem s : Str.rstrip (Str.rstrip s) = Str.rstrip s.
Proof.
  induction s as [|c s IH]; simpl; [done|].
  destruct (Str.rstrip s) as [|d r] eqn:E.
  - destruct (Str.isspace c) eqn:Ec; simpl; [done | by rewrite Ec].
  - change (Str.rstrip (String c (String d r))) with
      (match Str.rstrip (String d r) with
       | EmptyString =>
           if Str.isspace c then EmptyString else String c EmptyString
       | r' => String c r'
       end).
    by rewrite IH.
Qed.

(** The result of [strip] has no whitespace at either end. *)
Lemma strip_trimmed s :
  Str.lstrip (Str.strip s) = Str.strip s /\ Str.rstrip (Str.strip s) = Str.strip s.
Proof.
  split.
  - apply lstrip_fixed, head_ok_rstrip, head_ok_lstrip.
  - apply rstrip_idem.
Qed.

Lemma strip_fixed s :
  Str.strip s = s -> Str.lstrip s = s /\ Str.rstrip s = s.
Proof. intros H. pose proof (strip_trimmed s) as Ht. by rewrite H in Ht. Qed.

Lemma strip_idem s : Str.strip (Str.strip s) = Str.strip s.
Proof.
  destruct (strip_trimmed s) as [Hl Hr].
  unfold Str.strip at 1. by rewrite Hl, Hr.
Qed.

Lemma rstrip_hyphenate s :
  Str.rstrip s = s -> Str.rstrip (Str.map hyphenate s) = Str.map hyphenate s.
Proof.
  induction s as [|c s IH]; [done|]. intros H.
  destruct (rstrip_fixed_cons _ _ H) as [[-> Hc] | [Hne Hs]].
  - simpl. by rewrite (hyphenate_nonspace c Hc), Hc.
  - change (Str.rstrip (Str.map hyphenate (String c s))) with
      (match Str.rstrip (Str.map hyphenate s) with
       | EmptyString =>
           if Str.isspace (hyphenate c) then EmptyString
           else String (hyphenate c) EmptyString
       | r' => String (hyphenate c) r'
       end).
    rewrite (IH Hs). pose proof (map_nonempty hyphenate s Hne).
    change (Str.map hyphenate (String c s)) with
      (String (hyphenate c) (Str.map hyphenate s)).
    by destruct (Str.map hyphenate s).
Qed.

Lemma lstrip_hyphenate s :
  Str.lstrip s = s -> Str.lstrip (Str.map hyphenate s) = Str.map hyphenate s.
Proof.
  intros H. apply lstrip_fixed in H. apply lstrip_fixed.
  destruct s as [|c s]; simpl in *; [done|].
  apply negb_true_iff in H. by rewrite (hyphenate_nonspace c H), H.
Qed.

Lemma strip_hyphenate s :
  Str.strip s = s -> Str.strip (Str.map hyphenate s) = Str.map hyphenate s.
Proof.
  intros H. destruct (strip_fixed s H) as [Hl Hr].
  unfold Str.strip. by rewrite (lstrip_hyphenate s Hl), (rstrip_hyphenate s Hr).
Qed.

Lemma map_hyphenate_no_space s :
  Str.contains " " s = false -> Str.map hyphenate s = s.
Proof.
  induction s as [|c s IH]; simpl; [done|]. intros H.
  apply orb_false_iff in H as [Hc Hs].
  unfold hyphenate at 1. by rewrite Hc, (IH Hs).
Qed.

Lemma no_space_hyphenate s : Str.contains " " (Str.map hyphenate s) = false.
Proof.
  induction s as [|c s IH]; simpl; [done|]. rewrite IH, orb_false_r.
  unfold hyphenate. by destruct (Ascii.eqb c " ") eqn:E.
Qed.

Lemma string_of_map f s :
  string_of_list_ascii (map f (list_ascii_of_string s)) = Str.map f s.
Proof. induction s as [|c s IH]; simpl; [done | by rewrite IH]. Qed.

(** ** The climate URL builder *)

(** The loop invariant of [replace_loop]: when [index] is reached, the
    characters before it have been hyphenated and the others are as they
    were. *)
Lemma replace_loop_spec steps index (l : list ascii) :
  length l <= index + steps ->
  replace_loop steps index l
  = (take index l ++ map hyphenate (drop index l))%list.
Proof.
  revert index l. induction steps as [|steps IH]; intros index l Hlen; simpl.
  - rewrite take_ge, drop_ge by lia. by rewrite app_nil_r.
  - destruct (l !! index) as [value|] eqn:Hv.
    + pose proof (lookup_lt_Some _ _ _ Hv) as Hlt.
      rewrite IH by (destruct (Ascii.eqb value " "); rewrite ?length_insert; lia).
      rewrite (drop_S l value index Hv). simpl.
      destruct (Ascii.eqb value " ") eqn:E.
      * rewrite take_insert_lt, drop_insert_lt by lia.
        rewrite (take_S_r _ _ _ Hv).
        rewrite insert_app_r_alt by (rewrite length_take; lia).
        rewrite length_take, Nat.min_l, Nat.sub_diag by lia. simpl.
        rewrite <- app_assoc. simpl. unfold hyphenate at 2. by rewrite E.
      * rewrite (take_S_r _ _ _ Hv), <- app_assoc. simpl.
        unfold hyphenate at 2. by rewrite E.
    + apply lookup_ge_None_1 in Hv.
      rewrite take_ge, drop_ge by lia. by rewrite app_nil_r.
Qed.

(** Refinement: the loop of the code computes the normalisation that the
    specification words. *)
Lemma clean_string_spec s : clean_string s = normalize_spec s.
Proof.
  unfold clean_string, normalize_spec.
  destruct (Str.contains " " (Str.strip (Str.lower s))) eqn:E.
  - rewrite replace_loop_spec by lia. simpl. apply string_of_map.
  - by rewrite map_hyphenate_no_space.
Qed.

(** C4: [generate_climate_url] puts the lowercased, trimmed and hyphenated
    city and state into the fixed path template, for every city and state;
    for "New York" and "NY" the URL is the one of the specification. *)
Theorem generate_climate_url_spec :
  (forall city state,
     generate_climate_url city state =
     "https://www.usclimatedata.com/climate/" +:+ normalize_spec city
       +:+ "/" +:+ normalize_spec state +:+ "/united-states/")
  /\ generate_climate_url "New York" "NY" =
     "https://www.usclimatedata.com/climate/new-york/ny/united-states/".
Proof.
  split; [|reflexivity].
  intros city state. unfold generate_climate_url. simpl.
  by rewrite !clean_string_spec.
Qed.

Lemma normalized_fixed s : normalized s -> clean_string s = s.
Proof.
  intros (Hl & Hs & Hc). unfold clean_string. by rewrite Hl, Hs, Hc.
Qed.

Lemma clean_string_normalized s : normalized (clean_string s).
Proof.
  rewrite clean_string_spec. unfold normalize_spec. repeat split.
  - unfold Str.lower at 1. rewrite map_map.
    rewrite (map_ext _ (fun c => hyphenate (Str.lower_char c)))
      by apply lower_char_hyphenate.
    rewrite <- map_map. fold (Str.lower (Str.strip (Str.lower s))).
    by rewrite lower_strip, lower_idem.
  - apply strip_hyphenate, strip_idem.
  - apply no_space_hyphenate.
Qed.

(** C5: the normalisation of [generate_climate_url] is idempotent: it
    returns a lowercase, trimmed, space-free string unchanged, and applying
    it twice to any string is the same as applying it once. *)
Theorem clean_string_idempotent :
  (forall s, Str.lower s = s -> Str.strip s = s -> Str.contains " " s = false ->
             clean_string s = s)
  /\ (forall s, clean_string (clean_string s) = clean_string s).
Proof.
  split.
  - intros s Hl Hs Hc. by apply normalized_fixed.
  - intros s. apply normalized_fixed, clean_string_normalized.
Qed.

Lemma clean_string_idempotent_witness :
  clean_string "new-york" = "new-york"
  /\ clean_string (clean_string "  New York ") = clean_string "  New York ".
Proof.
  split.
  - apply (proj1 clean_string_idempotent "new-york"); reflexivity.
  - apply (proj2 clean_string_idempotent).
Defined.

(** ** The error monad and loops *)

Lemma bind_Returned {A B} (m : outcome A) (k : A -> outcome B) b :
  (x ← m; k x) = Returned b <-> exists a, m = Returned a /\ k a = Returned b.
Proof.
  destruct m as [a|e]; simpl; split.
  - intros H. by exists a.
  - by intros (a' & [= ->] & H).
  - done.
  - by intros (a' & [=] & _).
Qed.

Lemma bind_Raised {A B} (m : outcome A) (k : A -> outcome B) e :
  (x ← m; k x) = Raised e <->
  m = Raised e \/ exists a, m = Returned a /\ k a = Raised e.
Proof.
  destruct m as [a|e']; simpl; split.
  - intros H. right. by exists a.
  - by intros [[=] | (a' & [= ->] & H)].
  - intros [= ->]. by left.
  - by intros [[= ->] | (a' & [=] & _)].
Qed.

Lemma returned_or_raised {A} (o : outcome A) : is_Returned o \/ is_Raised o.
Proof. destruct o as [a|e]; [left; by exists a | right; by exists e]. Qed.

Lemma not_returned_and_raised {A} (o : outcome A) :
  is_Returned o -> is_Raised o -> False.
Proof. intros [a ->] [e [=]]. Qed.

(** A loop that appends one value per item collects the values of its
    body. *)
Lemma for_each_collect {A B} (f : A -> outcome B) items acc :
  for_each (fun x acc => v ← f x; Returned (acc ++ [v])%list) items acc
  = vs ← mapM f items; Returned (acc ++ vs)%list.
Proof.
  revert acc. induction items as [|x items IH]; intros acc; simpl.
  - by rewrite app_nil_r.
  - destruct (f x) as [v|e]; simpl; [|done].
    rewrite IH. destruct (mapM f items) as [vs|e]; simpl; [|done].
    by rewrite <- app_assoc.
Qed.

Lemma mapM_app {A B} (f : A -> outcome B) l1 l2 :
  mapM f (l1 ++ l2)%list
  = vs1 ← mapM f l1; vs2 ← mapM f l2; Returned (vs1 ++ vs2)%list.
Proof.
  induction l1 as [|x l1 IH]; simpl.
  - by destruct (mapM f l2).
  - destruct (f x) as [v|e]; simpl; [|done]. rewrite IH.
    destruct (mapM f l1) as [vs1|e]; simpl; [|done].
    by destruct (mapM f l2).
Qed.

Lemma mapM_Returned {A B} (f : A -> outcome B) l vs :
  mapM f l = Returned vs <-> Forall2 (fun x v => f x = Returned v) l vs.
Proof.
  revert vs. induction l as [|x l IH]; intros vs; simpl.
  - split; [intros [= <-]; constructor | by intros ->%Forall2_nil_inv_l].
  - split.
    + intros (v & Hv & (vs' & Hvs & [= <-])%bind_Returned)%bind_Returned.
      constructor; [done | by apply IH].
    + intros (v & vs' & Hv & Hvs & ->)%Forall2_cons_inv_l.
      apply IH in Hvs. by rewrite Hv, Hvs.
Qed.

Lemma mapM_Raised {A B} (f : A -> outcome B) l e :
  mapM f l = Raised e -> exists x, x ∈ l /\ f x = Raised e.
Proof.
  induction l as [|x l IH]; simpl; [done|].
  intros [H | (v & Hv & [H | (vs & _ & [=])]%bind_Raised)]%bind_Raised.
  - exists x. split; [left | done].
  - destruct (IH H) as (y & Hy & Hf). exists y. split; [by right | done].
Qed.

(** The exception of [mapM] is that of the first item on which [f]
    raises: [f] returns on all the items before it. *)
Lemma mapM_first_Raised {A B} (f : A -> outcome B) l e :
  mapM f l = Raised e ->
  exists i x,
    l !! i = Some x /\ f x = Raised e
    /\ forall j y, j < i -> l !! j = Some y -> is_Returned (f y).
Proof.
  induction l as [|x l IH]; simpl; [done|].
  intros [H | (v & Hv & [H | (vs & _ & [=])]%bind_Raised)]%bind_Raised.
  - exists 0, x. repeat split; [done|]. intros j y Hj. lia.
  - destruct (IH H) as (i & y & Hi & Hy & Hbefore).
    exists (S i), y. repeat split; [done..|].
    intros [|j] z Hj Hz; simpl in Hz.
    + injection Hz as <-. by exists v.
    + apply (Hbefore j); [lia | done].
Qed.

Lemma mapM_all_Returned {A B} (f : A -> outcome B) l :
  (forall x, x ∈ l -> is_Returned (f x)) -> is_Returned (mapM f l).
Proof.
  intros Hall. destruct (mapM f l) as [vs|e] eqn:E; [by exists vs|].
  destruct (mapM_Raised _ _ _ E) as (x & Hx & Hf).
  destruct (not_returned_and_raised (f x)); [by apply Hall | by exists e].
Qed.

(** ** Subscriptions on decoded JSON *)

Lemma seq_index_error {A} (l : list A) i e :
  seq_index l i = Raised e -> e = IndexError.
Proof.
  unfold seq_index. destruct (_ && _); [destruct (l !! _)|]; congruence.
Qed.

Lemma seq_index_in {A} (l : list A) n x :
  l !! n = Some x -> seq_index l (Z.of_nat n) = Returned x.
Proof.
  intros H. pose proof (lookup_lt_Some _ _ _ H) as Hlt. unfold seq_index.
  destruct (Z.ltb_spec (Z.of_nat n) 0); [lia|].
  destruct (Z.leb_spec 0 (Z.of_nat n)); [|lia].
  destruct (Z.ltb_spec (Z.of_nat n) (Z.of_nat (length l))); [|lia].
  simpl. by rewrite Nat2Z.id, H.
Qed.

Lemma seq_index_out {A} (l : list A) i :
  (Z.of_nat (length l) <= i)%Z -> seq_index l i = Raised IndexError.
Proof.
  intros H. unfold seq_index.
  destruct (Z.ltb_spec i 0); [lia|].
  destruct (Z.ltb_spec i (Z.of_nat (length l))); [lia|].
  by rewrite andb_false_r.
Qed.

(** A failed subscription raises [KeyError], [IndexError] or [TypeError]. *)
Lemma getitem_error v k e : getitem v k = Raised e -> lookup_error e = true.
Proof.
  destruct v, k; simpl; try (intros [= <-]; done).
  - destruct (seq_index _ _) eqn:E; simpl; [done|].
    intros [= <-]. by rewrite (seq_index_error _ _ _ E).
  - intros H. by rewrite (seq_index_error _ _ _ H).
  - destruct (fields !! s); [done|]. by intros [= <-].
Qed.

(** Only an integer subscript can be out of range. *)
Lemma getitem_string_key v k e :
  string_key k = true -> getitem v k = Raised e -> e <> IndexError.
Proof.
  destruct k as [s|i]; [|done]. intros _.
  destruct v; simpl; try (by intros [= <-]).
  destruct (fields !! s); [done | by intros [= <-]].
Qed.

Lemma subscript_error v ks e :
  subscript v ks = Raised e -> lookup_error e = true.
Proof.
  revert v. induction ks as [|k ks IH]; intros v; simpl; [done|].
  intros [H | (x & _ & H)]%bind_Raised; [by eapply getitem_error | by eapply IH].
Qed.

Lemma subscript_string_keys v ks e :
  forallb string_key ks = true -> subscript v ks = Raised e -> e <> IndexError.
Proof.
  revert v. induction ks as [|k ks IH]; intros v; simpl; [done|].
  intros [Hk Hks]%andb_true_iff [H | (x & _ & H)]%bind_Raised.
  - by eapply getitem_string_key.
  - by eapply IH.
Qed.

Lemma subscript_head v k ks x :
  getitem v k = Returned x -> subscript v (k :: ks) = subscript x ks.
Proof. intros H. simpl. by rewrite H. Qed.

(** Subscriptions never raise [AttributeError]: an [except AttributeError]
    clause around one never runs. *)
Lemma try_except_subscript v ks handler :
  try_except (subscript v ks) is_AttributeError handler = subscript v ks.
Proof.
  unfold try_except. destruct (subscript v ks) as [x|e] eqn:E; [done|].
  apply subscript_error in E. by destruct e.
Qed.

(** ** The rental listings extraction *)

Lemma rental_listing_mapM response limit :
  rental_listing response limit = mapM (rental_elements response) (range limit).
Proof.
  unfold rental_listing. rewrite (for_each_collect (rental_elements response)).
  by destruct (mapM _ _).
Qed.

Lemma range_split n limit :
  (0 <= n < limit)%Z ->
  range limit = (range n ++ n :: seqZ (n + 1) (limit - n - 1))%list.
Proof.
  intros H. unfold range.
  replace limit with (n + (limit - n))%Z at 1 by lia.
  rewrite seqZ_app, (seqZ_cons (0 + n)), Z.add_0_l by lia.
  replace (Z.succ n) with (n + 1)%Z by lia.
  by replace (Z.pred (limit - n)) with (limit - n - 1)%Z by lia.
Qed.

(** Past the end of the array, the first subscription of the round fails. *)
Lemma rental_elements_out_of_range rs i :
  (Z.of_nat (length rs) <= i)%Z ->
  rental_elements (JArr rs) i = Raised IndexError.
Proof. intros H. unfold rental_elements. simpl. by rewrite seq_index_out. Qed.

Ltac raised_in H := apply bind_Raised in H as [H | (? & _ & H)].
Ltac string_keys H := refine (subscript_string_keys _ _ _ _ H); reflexivity.

(** Within the array, whatever a round raises, it is not [IndexError]. *)
Lemma rental_elements_in_range rs n e :
  n < length rs ->
  rental_elements (JArr rs) (Z.of_nat n) = Raised e -> e <> IndexError.
Proof.
  intros Hn. destruct (lookup_lt_is_Some_2 rs n Hn) as [x Hx].
  assert (getitem (JArr rs) (KInt (Z.of_nat n)) = Returned x) as Hget
    by (simpl; by apply seq_index_in).
  unfold rental_elements.
  rewrite !(subscript_head _ _ _ _ Hget), !try_except_subscript. intros H.
  repeat (raised_in H; [string_keys H|]).
  raised_in H; [destruct (not_None _); [string_keys H | done]|].
  raised_in H; [destruct (not_None _); [string_keys H | done]|].
  repeat (raised_in H; [string_keys H|]).
  done.
Qed.

Lemma rental_elements_error response i e :
  rental_elements response i = Raised e -> lookup_error e = true.
Proof.
  unfold rental_elements. rewrite !try_except_subscript. intros H.
  repeat (raised_in H; [by eapply subscript_error|]).
  raised_in H; [destruct (not_None _); [by eapply subscript_error | done]|].
  raised_in H; [destruct (not_None _); [by eapply subscript_error | done]|].
  repeat (raised_in H; [by eapply subscript_error|]).
  done.
Qed.

(** C1, as amended: when the results array is shorter than [limit], the
    loop never clamps nor stops early: it always raises, and what it raises
    is [IndexError] exactly when every entry present is extracted without
    error; otherwise it raises the [KeyError] or [TypeError] of the first
    entry that fails, all the entries before that one being extracted.
    When the array has at least [limit] entries, no [IndexError] is
    raised. *)
Theorem rental_listing_short_response rs limit :
  ((Z.of_nat (length rs) < limit)%Z ->
     is_Raised (rental_listing (JArr rs) limit)
     /\ (rental_listing (JArr rs) limit = Raised IndexError <->
         forall n, n < length rs ->
                   is_Returned (rental_elements (JArr rs) (Z.of_nat n)))
     /\ (forall e,
           rental_listing (JArr rs) limit = Raised e -> e <> IndexError ->
           (e = TypeError \/ exists k, e = KeyError k)
           /\ exists n,
                n < length rs
                /\ rental_elements (JArr rs) (Z.of_nat n) = Raised e
                /\ forall m, m < n ->
                     is_Returned (rental_elements (JArr rs) (Z.of_nat m))))
  /\ ((limit <= Z.of_nat (length rs))%Z ->
        rental_listing (JArr rs) limit <> Raised IndexError).
Proof.
  split; intros Hlen; rewrite rental_listing_mapM.
  - split; [|split].
    + rewrite (range_split (Z.of_nat (length rs))), mapM_app by lia.
      simpl. rewrite rental_elements_out_of_range by lia.
      destruct (mapM _ (range _)) as [vs|e]; simpl; by eexists.
    + rewrite (range_split (Z.of_nat (length rs))), mapM_app by lia.
      simpl. rewrite rental_elements_out_of_range by lia.
      destruct (mapM _ (range _)) as [vs|e] eqn:E; simpl.
      * split; [intros _ | done].
        intros n Hn. apply mapM_Returned in E.
        assert (range (Z.of_nat (length rs)) !! n = Some (Z.of_nat n)) as Hr
          by (unfold range; rewrite lookup_seqZ_lt by lia; f_equal; lia).
        destruct (Forall2_lookup_l _ _ _ _ _ E Hr) as (v & _ & Hv). by exists v.
      * split.
        -- intros [= ->]. apply mapM_Raised in E as (x & Hx & Hf).
           apply elem_of_seqZ in Hx.
           rewrite <- (Z2Nat.id x) in Hf by lia.
           by apply rental_elements_in_range in Hf; [|lia].
        -- intros Hall.
           destruct (not_returned_and_raised (mapM (rental_elements (JArr rs))
                      (range (Z.of_nat (length rs))))); [|by exists e].
           apply mapM_all_Returned. intros x Hx%elem_of_seqZ.
           rewrite <- (Z2Nat.id x) by lia. apply Hall. lia.
    + intros e (i & x & Hi & Hx & Hbefore)%mapM_first_Raised He.
      apply lookup_seqZ in Hi as [-> Hi]. rewrite Z.add_0_l in Hx.
      assert (i < length rs) as Hin.
      { destruct (Nat.lt_ge_cases i (length rs)) as [|Hout]; [done|].
        rewrite rental_elements_out_of_range in Hx by lia. congruence. }
      split.
      * pose proof (rental_elements_error _ _ _ Hx) as Herr.
        destruct e; try done; [right; by eexists | by left].
      * exists i. repeat split; [done..|]. intros m Hm.
        apply (Hbefore m). { done. }
        unfold range. rewrite lookup_seqZ_lt by lia. f_equal; lia.
  - intros (x & Hx%elem_of_seqZ & Hf)%mapM_Raised.
    rewrite <- (Z2Nat.id x) in Hf by lia.
    by apply rental_elements_in_range in Hf; [|lia].
Qed.

Lemma rental_listing_short_response_witness :
  rental_listing (JArr [listing JNull one_bed]) 2 = Raised IndexError
  /\ ((TypeError = TypeError \/ exists k, TypeError = KeyError k)
      /\ exists n,
           n < length [listing JNull one_bed; unlocated_listing]
           /\ rental_elements (JArr [listing JNull one_bed; unlocated_listing])
                (Z.of_nat n) = Raised TypeError
           /\ forall m, m < n ->
                is_Returned
                  (rental_elements (JArr [listing JNull one_bed; unlocated_listing])
                     (Z.of_nat m)))
  /\ rental_listing (JArr [listing JNull one_bed]) 1 <> Raised IndexError.
Proof.
  split; [|split].
  - apply (proj1 (proj2 (proj1
      (rental_listing_short_response [listing JNull one_bed] 2) eq_refl))).
    intros [|n] Hn; [|simpl in Hn; lia]. eexists. vm_compute. reflexivity.
  - apply (proj2 (proj2 (proj1
      (rental_listing_short_response [listing JNull one_bed; unlocated_listing] 3)
      eq_refl))); [vm_compute; reflexivity | discriminate].
  - apply (proj2 (rental_listing_short_response [listing JNull one_bed] 1)).
    simpl. lia.
Defined.

(** C1, as stated, fails: a one-entry array and [limit = 2], the entry
    without a coordinate.  The first round raises [TypeError] on
    [None['lat']]; the index that is out of range is never reached. *)
Lemma rental_listing_unlocated :
  (Z.of_nat (length [unlocated_listing]) < 2)%Z
  /\ rental_listing (JArr [unlocated_listing]) 2 = Raised TypeError
  /\ rental_listing (JArr [unlocated_listing]) 2 <> Raised IndexError.
Proof. split; [reflexivity|]. split; vm_compute; [reflexivity | discriminate]. Qed.

(** C8, on the code: an entry whose description has no [baths_max] (or no
    [beds_max]), or that has no [tags] or no [photos]: the [KeyError]
    propagates, since the [except] clauses name [AttributeError], which a
    subscription never raises. *)
Theorem rental_listing_defaults_missed :
  rental_listing (JArr [listing JNull (obj [("beds_max", JInt 2)])]) 1
    = Raised (KeyError (KStr "baths_max"))
  /\ rental_listing (JArr [listing JNull (obj [("baths_max", JInt 1)])]) 1
    = Raised (KeyError (KStr "beds_max"))
  /\ rental_listing (JArr [untagged_listing]) 1 = Raised (KeyError (KStr "tags"))
  /\ rental_listing (JArr [unpictured_listing]) 1
    = Raised (KeyError (KStr "photos")).
Proof. repeat split; vm_compute; reflexivity. Qed.

Ltac returned_in H :=
  let v := fresh "v" in let Hv := fresh "Hv" in
  apply bind_Returned in H as (v & Hv & H).

(** Whenever a round returns, the four guarded fields hold what the
    subscriptions found: no default stands in for a failed lookup. *)
Lemma rental_elements_guarded_fields response i elements :
  rental_elements response i = Returned elements ->
  subscript response [KInt i; KStr "description"; KStr "baths_max"]
    = Returned (Bathrooms elements)
  /\ subscript response [KInt i; KStr "description"; KStr "beds_max"]
    = Returned (Bedrooms elements)
  /\ subscript response [KInt i; KStr "tags"] = Returned (Ammenities elements)
  /\ subscript response [KInt i; KStr "photos"] = Returned (Photos elements).
Proof.
  unfold rental_elements. rewrite !try_except_subscript. intros H.
  do 13 returned_in H. by injection H as <-.
Qed.



(** ** The weather extraction *)

Example current_weather_ex :
  current_weather str_scalar "11/03/26" weather_payload = Returned {|
    Date := "11/03/26";
    Description := JStr "clear sky";
    Temperature := "72.5 F" +:+ degree_sign;
    High_Today := "75.2 F" +:+ degree_sign;
    Low_Today := "68 F" +:+ degree_sign;
    Humidity := "40%";
    Wind_Speed := "4.61 mph";
    Feels_Like := "71.8 F" +:+ degree_sign;
    Pressure := "1016 hPa"
  |}.
Proof. vm_compute. reflexivity. Qed.

(** What [current_weather] raises is what one of its subscriptions raises. *)
Lemma current_weather_Raised str today data e :
  current_weather str today data = Raised e ->
  exists ks, ks ∈ expected_keys /\ subscript data ks = Raised e.
Proof.
  unfold current_weather, expected_keys. intros H.
  apply bind_Raised in H as [H | (main & Hmain & H)].
  { exists [KStr "main"]. split; [set_solver|]. simpl. by rewrite H. }
  apply bind_Raised in H as [H | (? & _ & H)].
  { eexists. split; [|exact H]. set_solver. }
  assert (forall k, getitem main k = Raised e ->
                    subscript data [KStr "main"; k] = Raised e) as Hsub.
  { intros k Hk. simpl. rewrite Hmain. simpl. by rewrite Hk. }
  do 4 (apply bind_Raised in H as [H | (? & _ & H)];
        [eexists; split; [|exact (Hsub _ H)]; set_solver|]).
  apply bind_Raised in H as [H | (? & _ & H)].
  { eexists. split; [|exact H]. set_solver. }
  do 2 (apply bind_Raised in H as [H | (? & _ & H)];
        [eexists; split; [|exact (Hsub _ H)]; set_solver|]).
  done.
Qed.

(** When [current_weather] returns, every expected key was there. *)
Lemma current_weather_Returned str today data r :
  current_weather str today data = Returned r ->
  forall ks, ks ∈ expected_keys -> is_Returned (subscript data ks).
Proof.
  unfold current_weather, expected_keys. intros H.
  apply bind_Returned in H as (main & Hmain & H).
  do 8 returned_in H. intros ks Hks.
  repeat (apply elem_of_cons in Hks as [-> | Hks]);
    try (by apply elem_of_nil in Hks);
    try (by eexists);
    simpl; rewrite Hmain; simpl;
    rewrite ?Hv0, ?Hv1, ?Hv2, ?Hv3, ?Hv5, ?Hv6; by eexists.
Qed.

(** C3, as amended: when an expected key is absent from the payload,
    [current_weather] raises the exception of the subscription that fails,
    a [KeyError], [IndexError] or [TypeError], which leaves the handler
    uncaught: the handler does not turn it into a 502 response. *)
Theorem current_weather_key_absent str today data :
  key_absent data ->
  exists e,
    current_weather str today data = Raised e
    /\ lookup_error e = true
    /\ (exists ks, ks ∈ expected_keys /\ subscript data ks = Raised e)
    /\ ~ upstream_error (current_weather str today data).
Proof.
  intros (ks & Hks & Hraised).
  destruct (current_weather str today data) as [r|e] eqn:E.
  - destruct (not_returned_and_raised (subscript data ks)); [|done].
    by eapply current_weather_Returned.
  - exists e. destruct (current_weather_Raised _ _ _ _ E) as (ks' & Hks' & He).
    pose proof (subscript_error _ _ _ He) as Herr.
    repeat split; [done | by exists ks' |].
    unfold upstream_error. intros [= ->]. done.
Qed.

Lemma current_weather_key_absent_witness :
  exists e,
    current_weather str_scalar "11/03/26" weather_payload_no_conditions = Raised e
    /\ lookup_error e = true
    /\ (exists ks, ks ∈ expected_keys
                   /\ subscript weather_payload_no_conditions ks = Raised e)
    /\ ~ upstream_error
         (current_weather str_scalar "11/03/26" weather_payload_no_conditions).
Proof.
  apply (current_weather_key_absent str_scalar "11/03/26"
           weather_payload_no_conditions).
  exists [KStr "weather"; KInt 0; KStr "description"]. split.
  - unfold expected_keys. set_solver.
  - exists IndexError. vm_compute. reflexivity.
Defined.

(** C3, as stated, fails: on a payload without [main] the handler raises
    [KeyError('main')], and that is not an upstream-error response. *)
Lemma current_weather_no_main :
  key_absent (obj [])
  /\ current_weather str_scalar "11/03/26" (obj [])
     = Raised (KeyError (KStr "main"))
  /\ ~ upstream_error (current_weather str_scalar "11/03/26" (obj [])).
Proof.
  split; [|split].
  - exists [KStr "main"]. split; [unfold expected_keys; set_solver|].
    eexists. vm_compute. reflexivity.
  - vm_compute. reflexivity.
  - unfold upstream_error. vm_compute. discriminate.
Qed.

(** ** The climate extraction *)

Lemma monthly_mapM cells : monthly cells = mapM cell_value (take 12 cells).
Proof.
  unfold monthly. rewrite (for_each_collect cell_value).
  by destruct (mapM _ _).
Qed.

(** C6: what [get_forecast] returns is, in [avg_high], the integer values
    of the first twelve cells of class [high text-right] in document order,
    or of all of them when there are fewer, and in [avg_low] likewise for
    class [low text-right]; it returns whenever those cells hold
    integers. *)
Theorem get_forecast_first_twelve soup r :
  (get_forecast soup = Returned r <->
   Forall2 (fun temp v => cell_value temp = Returned v)
     (take 12 (Soup.find_all soup "td" (Soup.by_class "high text-right")))
     (avg_high r)
   /\ Forall2 (fun temp v => cell_value temp = Returned v)
     (take 12 (Soup.find_all soup "td" (Soup.by_class "low text-right")))
     (avg_low r))
  /\ (get_forecast soup = Returned r ->
      length (avg_high r)
      = min (length (Soup.find_all soup "td" (Soup.by_class "high text-right"))) 12
      /\ length (avg_low r)
      = min (length (Soup.find_all soup "td" (Soup.by_class "low text-right"))) 12).
Proof.
  assert (get_forecast soup = Returned r <->
    Forall2 (fun temp v => cell_value temp = Returned v)
      (take 12 (Soup.find_all soup "td" (Soup.by_class "high text-right")))
      (avg_high r)
    /\ Forall2 (fun temp v => cell_value temp = Returned v)
      (take 12 (Soup.find_all soup "td" (Soup.by_class "low text-right")))
      (avg_low r)) as Hiff.
  { unfold get_forecast. rewrite !monthly_mapM. split.
    - intros H. do 2 returned_in H. injection H as <-. simpl.
      split; by apply mapM_Returned.
    - intros [Hh%mapM_Returned Hl%mapM_Returned]. rewrite Hh. simpl.
      rewrite Hl. simpl. by destruct r. }
  split; [done|]. intros [Hh Hl]%Hiff.
  apply Forall2_length in Hh, Hl. rewrite length_take in Hh, Hl. lia.
Qed.

Lemma get_forecast_first_twelve_witness :
  get_forecast climate_page = Returned climate_page_forecast
  /\ length (avg_high climate_page_forecast) = 12
  /\ length (avg_low climate_page_forecast) = 3.
Proof.
  assert (get_forecast climate_page = Returned climate_page_forecast) as H.
  { apply (proj1 (get_forecast_first_twelve climate_page climate_page_forecast)).
    split; apply mapM_Returned; vm_compute; reflexivity. }
  split; [exact H|].
  exact (proj2 (get_forecast_first_twelve climate_page climate_page_forecast) H).
Defined.

(** ** The job board scraper *)

Example get_record_ex :
  get_record "2026-11-03" (job_card "Data Scientist" [salary_span]) = Returned {|
    Job_Title := Some (AttrStr "Data Scientist");
    Company := "Acme";
    Location := Some (AttrStr "New York, NY");
    Date_Posted := "1 day ago";
    Extract_Date := "2026-11-03";
    Job_Description := "Build models.";
    Salary := "$100,000 a year";
    Job_Url := "https://www.indeed.com/rc/clk?jk=1"
  |}.
Proof. vm_compute. reflexivity. Qed.

Example job_opportunities_ex :
  job_opportunities "2026-11-03" (job_page [job_card "Data Scientist" []])
  = Returned {|
      Search_Results := "2,345 jobs";
      Top_10_Listings := [ {|
        Job_Title := Some (AttrStr "Data Scientist");
        Company := "Acme";
        Location := Some (AttrStr "New York, NY");
        Date_Posted := "1 day ago";
        Extract_Date := "2026-11-03";
        Job_Description := "Build models.";
        Salary := "";
        Job_Url := "https://www.indeed.com/rc/clk?jk=1"
      |} ]
    |}.
Proof. vm_compute. reflexivity. Qed.

Lemma deref_Raised o e : Soup.deref o = Raised e -> e = AttributeError.
Proof. destruct o; simpl; congruence. Qed.

Lemma text_strip_Raised o e : text_strip o = Raised e -> e = AttributeError.
Proof. unfold text_strip. destruct o; simpl; congruence. Qed.

Lemma str_add_Raised prefix v e : str_add prefix v = Raised e -> e = TypeError.
Proof. destruct v as [[]|]; simpl; congruence. Qed.

(** A [try] whose body raises nothing but [AttributeError] and whose
    handler returns: the statement never raises. *)
Lemma try_except_caught {A} (body : outcome A) (a : A) :
  (forall e, body = Raised e -> e = AttributeError) ->
  is_Returned (try_except body is_AttributeError (Returned a)).
Proof.
  intros H. destruct body as [x|e]; simpl; [by exists x|].
  rewrite (H e eq_refl). by exists a.
Qed.

(** [get_record] raises [AttributeError], or [TypeError] when the anchor
    has no [href], and nothing else. *)
Lemma get_record_error today card e :
  get_record today card = Raised e -> e = AttributeError \/ e = TypeError.
Proof.
  unfold get_record. intros H.
  do 2 (raised_in H; [left; by eapply deref_Raised|]).
  raised_in H; [left; by eapply text_strip_Raised|].
  raised_in H; [left; by eapply deref_Raised|].
  do 2 (raised_in H; [left; by eapply text_strip_Raised|]).
  raised_in H.
  { destruct (try_except_caught
      (text_strip (Soup.find card "span" (Soup.by_class "salarytext")))
      EmptyString (text_strip_Raised _)) as [salary Hsalary]. congruence. }
  raised_in H; [right; by eapply str_add_Raised|]. done.
Qed.

(** The listings are the records of all the cards found: the loop has no
    bound. *)
Lemma job_opportunities_mapM today soup :
  job_opportunities today soup =
  records ← mapM (get_record today)
    (Soup.find_all soup "div" (Soup.by_class "jobsearch-SerpJobCard"));
  jobs ← try_except
      (total_jobs ← text_strip (Soup.find soup "div" [("id", "searchCountPages")]);
       Returned (Str.join " " (last_two (Str.split total_jobs))))
      is_AttributeError
      (Returned EmptyString);
  Returned {| Search_Results := jobs; Top_10_Listings := records |}.
Proof.
  unfold job_opportunities. rewrite (for_each_collect (get_record today)).
  by destruct (mapM _ _).
Qed.

Lemma job_opportunities_length today soup r :
  job_opportunities today soup = Returned r ->
  length (Top_10_Listings r)
  = length (Soup.find_all soup "div" (Soup.by_class "jobsearch-SerpJobCard")).
Proof.
  rewrite job_opportunities_mapM. intros H.
  apply bind_Returned in H as (records & Hrecords & H).
  returned_in H. injection H as <-. simpl.
  apply mapM_Returned, Forall2_length in Hrecords. done.
Qed.

(** C2, on the code: a page with eleven job cards yields eleven listings;
    nothing caps the result at ten. *)
Theorem job_opportunities_eleven_cards :
  length (Soup.find_all job_page_eleven "div"
            (Soup.by_class "jobsearch-SerpJobCard")) = 11
  /\ exists r, job_opportunities "2026-11-03" job_page_eleven = Returned r
               /\ length (Top_10_Listings r) = 11.
Proof.
  split; [vm_compute; reflexivity|].
  destruct (job_opportunities "2026-11-03" job_page_eleven) as [r|e] eqn:E;
    [|vm_compute in E; discriminate].
  exists r. split; [done|].
  rewrite (job_opportunities_length _ _ _ E). vm_compute. reflexivity.
Qed.

(** C7: for a card without the salary element, the Salary field of the
    record is the empty string, and the record is returned, with all the
    other fields read from the card, whenever the elements of those fields
    are there: the failed salary lookup does not abort [get_record]. *)
Theorem get_record_no_salary today card :
  Soup.find card "span" (Soup.by_class "salarytext") = None ->
  (forall r, get_record today card = Returned r -> Salary r = EmptyString)
  /\ (forall h2 atag company loc summary date href,
        Soup.find card "h2" [] = Some h2 ->
        Soup.find h2 "a" [] = Some atag ->
        Soup.find card "span" (Soup.by_class "company") = Some company ->
        Soup.find card "div" (Soup.by_class "recJobLoc") = Some loc ->
        Soup.find card "div" (Soup.by_class "summary") = Some summary ->
        Soup.find card "span" (Soup.by_class "date") = Some date ->
        Soup.get atag "href" = Some (AttrStr href) ->
        get_record today card = Returned {|
          Job_Title := Soup.get atag "title";
          Company := Str.strip (Soup.text company);
          Location := Soup.get loc "data-rc-loc";
          Date_Posted := Str.strip (Soup.text date);
          Extract_Date := today;
          Job_Description := Str.strip (Soup.text summary);
          Salary := EmptyString;
          Job_Url := "https://www.indeed.com" +:+ href
        |}).
Proof.
  intros Hsalary. split.
  - intros r H. unfold get_record in H. rewrite Hsalary in H. simpl in H.
    do 7 returned_in H. by injection H as <-.
  - intros h2 atag company loc summary date href Hh2 Ha Hc Hl Hs Hd Hhref.
    unfold get_record.
    rewrite Hh2. simpl. rewrite Ha. simpl. rewrite Hc. simpl.
    rewrite Hl. simpl. rewrite Hs. simpl. rewrite Hd. simpl.
    rewrite Hsalary. simpl. by rewrite Hhref.
Qed.

Lemma get_record_no_salary_witness :
  Salary {|
    Job_Title := Some (AttrStr "Data Scientist");
    Company := "Acme";
    Location := Some (AttrStr "New York, NY");
    Date_Posted := "1 day ago";
    Extract_Date := "2026-11-03";
    Job_Description := "Build models.";
    Salary := "";
    Job_Url := "https://www.indeed.com/rc/clk?jk=1"
  |} = ""
  /\ get_record "2026-11-03" (job_card "Data Scientist" []) = Returned {|
    Job_Title := Some (AttrStr "Data Scientist");
    Company := "Acme";
    Location := Some (AttrStr "New York, NY");
    Date_Posted := "1 day ago";
    Extract_Date := "2026-11-03";
    Job_Description := "Build models.";
    Salary := "";
    Job_Url := "https://www.indeed.com/rc/clk?jk=1"
  |}.
Proof.
  assert (Soup.find (job_card "Data Scientist" []) "span"
            (Soup.by_class "salarytext") = None) as Hsalary
    by (vm_compute; reflexivity).
  split.
  - apply (proj1 (get_record_no_salary "2026-11-03" _ Hsalary)).
    vm_compute. reflexivity.
  - apply (proj2 (get_record_no_salary "2026-11-03" _ Hsalary)
             (title_h2 "Data Scientist") (title_anchor "Data Scientist")
             company_span location_div summary_div date_span "/rc/clk?jk=1");
      vm_compute; reflexivity.
Defined.

Lemma mapM_elem_Raised {A B} (f : A -> outcome B) l x :
  x ∈ l -> is_Raised (f x) -> is_Raised (mapM f l).
Proof.
  intros Hx Hf. destruct (mapM f l) as [vs|e] eqn:E; [|by exists e].
  apply mapM_Returned in E. apply list_elem_of_lookup in Hx as [i Hi].
  destruct (Forall2_lookup_l _ _ _ _ _ E Hi) as (v & _ & Hv).
  destruct (not_returned_and_raised (f x)); [by exists v | done].
Qed.

(** [get_record] raises [AttributeError] on the cards that lack one of
    those elements, and on no other card. *)
Lemma get_record_AttributeError today card :
  get_record today card = Raised AttributeError <-> lacks_required card.
Proof.
  unfold get_record, lacks_required.
  destruct (Soup.find card "h2" []) as [h2|] eqn:Hh2; simpl;
    [|split; [by left | done]].
  destruct (Soup.find h2 "a" []) as [atag|] eqn:Ha; simpl;
    [|split; [right; left; by exists h2 | done]].
  destruct (Soup.find card "span" (Soup.by_class "company")) eqn:Hc; simpl;
    [|split; [tauto | done]].
  destruct (Soup.find card "div" (Soup.by_class "recJobLoc")) eqn:Hl; simpl;
    [|split; [tauto | done]].
  destruct (Soup.find card "div" (Soup.by_class "summary")) eqn:Hs; simpl;
    [|split; [tauto | done]].
  destruct (Soup.find card "span" (Soup.by_class "date")) eqn:Hd; simpl;
    [|split; [tauto | done]].
  split.
  - intros H. exfalso. raised_in H.
    + destruct (try_except_caught
        (text_strip (Soup.find card "span" (Soup.by_class "salarytext")))
        EmptyString (text_strip_Raised _)) as [salary Hsalary]. congruence.
    + raised_in H; [by apply str_add_Raised in H | done].
  - intros [H | [(h & [= <-] & H) | [H | [H | [H | H]]]]]; congruence.
Qed.

(** C10: salary is the only element whose absence [get_record] tolerates:
    a card makes it raise [AttributeError], which nothing catches, exactly
    when the card lacks the title anchor, the company span, the location
    div, the summary div or the date span; and a page on which such a card
    is found makes [job_opportunities] raise as well, so that no listing is
    returned for any card. *)
Theorem get_record_malformed_card today card :
  (get_record today card = Raised AttributeError <-> lacks_required card)
  /\ (lacks_required card ->
      forall soup,
        card ∈ Soup.find_all soup "div" (Soup.by_class "jobsearch-SerpJobCard") ->
        exists e, job_opportunities today soup = Raised e
                  /\ (e = AttributeError \/ e = TypeError)).
Proof.
  split; [apply get_record_AttributeError|].
  intros Hcard soup Hin.
  apply (proj2 (get_record_AttributeError today card)) in Hcard.
  rewrite job_opportunities_mapM.
  destruct (mapM_elem_Raised (get_record today) _ _ Hin) as [e He];
    [by eexists|].
  exists e. rewrite He. split; [done|].
  apply mapM_Raised in He as (card' & _ & He). by eapply get_record_error.
Qed.

Lemma get_record_malformed_card_witness :
  get_record "2026-11-03" job_card_no_company = Raised AttributeError
  /\ exists e,
       job_opportunities "2026-11-03"
         (job_page [job_card "Data Scientist" []; job_card_no_company])
       = Raised e
       /\ (e = AttributeError \/ e = TypeError).
Proof.
  assert (lacks_required job_card_no_company) as Hlacks.
  { right. right. left. vm_compute. reflexivity. }
  split.
  - by apply (proj1 (get_record_malformed_card "2026-11-03" job_card_no_company)).
  - apply (proj2 (get_record_malformed_card "2026-11-03" job_card_no_company)
             Hlacks).
    vm_compute. set_solver.
Defined.


(** * Further properties of the extraction code *)

(** ** [rental_listing] *)

(** X1: [rental_listing] returns all or nothing.  With a [limit] of zero or
    less it returns the empty list whatever the response is; whenever it
    returns, the list has exactly [limit] listings, and a results array
    had at least that many entries. *)
Theorem rental_listing_all_or_nothing response limit :
  ((limit <= 0)%Z -> rental_listing response limit = Returned [])
  /\ (forall rental_list,
        rental_listing response limit = Returned rental_list ->
        length rental_list = Z.to_nat limit
        /\ (forall rs, response = JArr rs -> (limit <= Z.of_nat (length rs))%Z)).
Proof.
  rewrite rental_listing_mapM. split.
  - intros H. unfold range. by rewrite seqZ_nil.
  - intros rental_list H. split.
    + apply mapM_Returned, Forall2_length in H.
      unfold range in H. by rewrite length_seqZ in H.
    + intros rs ->.
      destruct (Z.le_gt_cases limit (Z.of_nat (length rs))) as [|Hgt]; [done|].
      destruct (not_returned_and_raised
                  (mapM (rental_elements (JArr rs)) (range limit)));
        [by eexists|].
      apply (mapM_elem_Raised _ _ (Z.of_nat (length rs))).
      * apply elem_of_seqZ. lia.
      * exists IndexError. by apply rental_elements_out_of_range.
Qed.

Lemma rental_listing_all_or_nothing_witness :
  rental_listing JNull (-3) = Returned []
  /\ length [listed (JStr "Unknown") (JStr "Unknown")] = Z.to_nat 1
  /\ (1 <= Z.of_nat (length [listing JNull one_bed; unlocated_listing]))%Z.
Proof.
  split.
  - apply (proj1 (rental_listing_all_or_nothing JNull (-3))). lia.
  - assert (rental_listing (JArr [listing JNull one_bed; unlocated_listing]) 1
            = Returned [listed (JStr "Unknown") (JStr "Unknown")]) as H
      by (vm_compute; reflexivity).
    destruct (proj2 (rental_listing_all_or_nothing _ _) _ H) as [Hlen Hrs].
    split; [exact Hlen | by apply Hrs].
Defined.

(** X2: [rental_listing] returns, or raises one of the exceptions of a
    failed subscription ([KeyError], [IndexError], [TypeError]), whatever
    the response is; no default value and no other exception come out of
    its four [try] blocks. *)
Theorem rental_listing_lookup_errors response limit :
  is_Returned (rental_listing response limit)
  \/ exists e, rental_listing response limit = Raised e /\ lookup_error e = true.
Proof.
  rewrite rental_listing_mapM.
  destruct (mapM _ _) as [l|e] eqn:E; [left; by exists l | right].
  exists e. split; [done|].
  apply mapM_Raised in E as (i & _ & Hi). by eapply rental_elements_error.
Qed.

(** The rounds of the loop that a returned list comes from. *)
Lemma rental_listing_lookup response limit rental_list n elements :
  rental_listing response limit = Returned rental_list ->
  rental_list !! n = Some elements ->
  rental_elements response (Z.of_nat n) = Returned elements.
Proof.
  rewrite rental_listing_mapM. intros Hall%mapM_Returned Hn.
  destruct (Forall2_lookup_r _ _ _ _ _ Hall Hn) as (i & Hi & H).
  apply lookup_seqZ in Hi as [-> _]. by rewrite Z.add_0_l in H.
Qed.

(** X3: every field of a returned listing, the two pet fields apart, is
    the value found in the entry of the same index at the path that the
    code reads, handed on unchanged. *)
Theorem rental_listing_fields response limit rental_list n elements :
  rental_listing response limit = Returned rental_list ->
  rental_list !! n = Some elements ->
  let entry ks := subscript response (KInt (Z.of_nat n) :: ks) in
  entry [KStr "location"; KStr "address"; KStr "coordinate"; KStr "lat"]
    = Returned (Latitude elements)
  /\ entry [KStr "location"; KStr "address"; KStr "coordinate"; KStr "lon"]
    = Returned (Longitude elements)
  /\ entry [KStr "location"; KStr "address"; KStr "line"]
    = Returned (Street_Address elements)
  /\ entry [KStr "location"; KStr "address"; KStr "city"]
    = Returned (City elements)
  /\ entry [KStr "location"; KStr "address"; KStr "state"]
    = Returned (State elements)
  /\ entry [KStr "description"; KStr "beds_max"] = Returned (Bedrooms elements)
  /\ entry [KStr "description"; KStr "baths_max"] = Returned (Bathrooms elements)
  /\ entry [KStr "list_price_max"] = Returned (List_Price elements)
  /\ entry [KStr "tags"] = Returned (Ammenities elements)
  /\ entry [KStr "photos"] = Returned (Photos elements).
Proof.
  intros Hall Hn entry. subst entry.
  pose proof (rental_listing_lookup _ _ _ _ _ Hall Hn) as H.
  unfold rental_elements in H. rewrite !try_except_subscript in H.
  do 13 returned_in H. by injection H as <-.
Qed.

Lemma rental_listing_fields_witness :
  subscript (JArr [listing cats_only one_bed])
    [KInt (Z.of_nat 0); KStr "location"; KStr "address"; KStr "coordinate"; KStr "lat"]
  = Returned (Latitude (listed (JBool true) (JBool false)))
  /\ subscript (JArr [listing cats_only one_bed])
       [KInt (Z.of_nat 0); KStr "list_price_max"]
     = Returned (List_Price (listed (JBool true) (JBool false))).
Proof.
  assert (rental_listing (JArr [listing cats_only one_bed]) 1
          = Returned [listed (JBool true) (JBool false)]) as H
    by (vm_compute; reflexivity).
  pose proof (rental_listing_fields _ _ _ 0 _ H eq_refl) as Hf.
  split; [apply Hf | apply Hf].
Defined.

(** X4: a smaller limit yields a prefix: when [rental_listing] returns a
    list for [limit], it returns for every [k <= limit] the first [k]
    listings of that list (none for [k <= 0]). *)
Theorem rental_listing_prefix response limit k rental_list :
  rental_listing response limit = Returned rental_list ->
  (k <= limit)%Z ->
  rental_listing response k = Returned (take (Z.to_nat k) rental_list).
Proof.
  rewrite !rental_listing_mapM. intros H Hk.
  destruct (Z.le_gt_cases k 0) as [Hneg|Hpos].
  - unfold range at 1. rewrite seqZ_nil by done.
    by replace (Z.to_nat k) with 0 by lia.
  - unfold range in H. replace limit with (k + (limit - k))%Z in H by lia.
    rewrite seqZ_app, mapM_app in H by lia.
    apply bind_Returned in H as (vs1 & Hvs1 & H).
    apply bind_Returned in H as (vs2 & _ & [= <-]).
    unfold range. rewrite Hvs1. f_equal.
    apply mapM_Returned, Forall2_length in Hvs1.
    rewrite length_seqZ in Hvs1. by rewrite take_app_length'.
Qed.

Lemma rental_listing_prefix_witness :
  rental_listing (JArr [listing JNull one_bed; listing cats_only one_bed]) 1
  = Returned (take (Z.to_nat 1)
      [listed (JStr "Unknown") (JStr "Unknown"); listed (JBool true) (JBool false)]).
Proof.
  apply (rental_listing_prefix _ 2); [vm_compute; reflexivity | lia].
Defined.

(** ** [current_weather] *)

(** X5: [current_weather] returns exactly when every expected key is in
    the payload; otherwise it raises what the first subscription to fail
    raises, the subscriptions taken in the order in which the handler
    evaluates them. *)
Theorem current_weather_first_failure str today data :
  (is_Returned (current_weather str today data) <->
   forall ks, ks ∈ expected_keys -> is_Returned (subscript data ks))
  /\ (forall e, current_weather str today data = Raised e <->
                mapM (subscript data) expected_keys = Raised e).
Proof.
  assert (forall e, current_weather str today data = Raised e <->
                    mapM (subscript data) expected_keys = Raised e) as Hraised.
  { intros e. unfold current_weather, expected_keys. simpl.
    destruct (getitem data (KStr "main")) as [main|e0]; simpl; [|by split; intros [= ->]].
    destruct (getitem data (KStr "weather")) as [weather|e0]; simpl; [|by split; intros [= ->]].
    destruct (getitem weather (KInt 0)) as [w0|e0]; simpl; [|by split; intros [= ->]].
    destruct (getitem w0 (KStr "description")) as [description|e0];
      simpl; [|by split; intros [= ->]].
    destruct (getitem main (KStr "temp")) as [temp|e0]; simpl; [|by split; intros [= ->]].
    destruct (getitem main (KStr "temp_max")) as [temp_max|e0]; simpl; [|by split; intros [= ->]].
    destruct (getitem main (KStr "temp_min")) as [temp_min|e0]; simpl; [|by split; intros [= ->]].
    destruct (getitem main (KStr "humidity")) as [humidity|e0]; simpl; [|by split; intros [= ->]].
    destruct (getitem data (KStr "wind")) as [wind|e0]; simpl; [|by split; intros [= ->]].
    destruct (getitem wind (KStr "speed")) as [speed|e0]; simpl; [|by split; intros [= ->]].
    destruct (getitem main (KStr "feels_like")) as [feels_like|e0];
      simpl; [|by split; intros [= ->]].
    destruct (getitem main (KStr "pressure")) as [pressure|e0];
      simpl; [|by split; intros [= ->]].
    split; intros [=]. }
  split; [|done]. split.
  - intros [r Hr]. by eapply current_weather_Returned.
  - intros Hall.
    destruct (current_weather str today data) as [r|e] eqn:E; [by exists r|].
    pose proof (proj1 (Hraised e) eq_refl) as Hm.
    apply mapM_Raised in Hm as (ks & Hks & He).
    destruct (not_returned_and_raised (subscript data ks));
      [by apply Hall | by exists e].
Qed.

Lemma current_weather_first_failure_witness :
  is_Returned (current_weather str_scalar "11/03/26" weather_payload)
  /\ mapM (subscript (obj [])) expected_keys = Raised (KeyError (KStr "main")).
Proof.
  split.
  - apply (proj1 (current_weather_first_failure str_scalar "11/03/26"
                    weather_payload)).
    intros ks Hks. unfold expected_keys in Hks.
    repeat (apply elem_of_cons in Hks as [-> | Hks]);
      [eexists; vm_compute; reflexivity .. | by apply elem_of_nil in Hks].
  - apply (proj2 (current_weather_first_failure str_scalar "11/03/26" (obj []))).
    vm_compute. reflexivity.
Defined.

(** X6: in a report that [current_weather] returns, the date is the one
    of the clock, the description is the provider's value as it is, and
    every other field is [str] of the value at its path followed by its
    unit: degrees Fahrenheit, percent, mph or hPa. *)
Theorem current_weather_report str today data r :
  current_weather str today data = Returned r ->
  exists description temp temp_max temp_min humidity speed feels_like pressure,
    subscript data [KStr "weather"; KInt 0; KStr "description"] = Returned description
    /\ subscript data [KStr "main"; KStr "temp"] = Returned temp
    /\ subscript data [KStr "main"; KStr "temp_max"] = Returned temp_max
    /\ subscript data [KStr "main"; KStr "temp_min"] = Returned temp_min
    /\ subscript data [KStr "main"; KStr "humidity"] = Returned humidity
    /\ subscript data [KStr "wind"; KStr "speed"] = Returned speed
    /\ subscript data [KStr "main"; KStr "feels_like"] = Returned feels_like
    /\ subscript data [KStr "main"; KStr "pressure"] = Returned pressure
    /\ Date r = today
    /\ Description r = description
    /\ Temperature r = str temp +:+ " F" +:+ degree_sign
    /\ High_Today r = str temp_max +:+ " F" +:+ degree_sign
    /\ Low_Today r = str temp_min +:+ " F" +:+ degree_sign
    /\ Humidity r = str humidity +:+ "%"
    /\ Wind_Speed r = str speed +:+ " mph"
    /\ Feels_Like r = str feels_like +:+ " F" +:+ degree_sign
    /\ Pressure r = str pressure +:+ " hPa".
Proof.
  unfold current_weather. intros H.
  apply bind_Returned in H as (main & Hmain & H).
  do 8 returned_in H. injection H as <-.
  exists v, v0, v1, v2, v3, v4, v5, v6. simpl. rewrite Hmain. simpl.
  rewrite Hv0, Hv1, Hv2, Hv3, Hv5, Hv6. simpl.
  simpl in Hv, Hv4. by rewrite Hv, Hv4.
Qed.

Lemma current_weather_report_witness :
  exists description temp temp_max temp_min humidity speed feels_like pressure,
    subscript weather_payload [KStr "weather"; KInt 0; KStr "description"]
      = Returned description
    /\ subscript weather_payload [KStr "main"; KStr "temp"] = Returned temp
    /\ subscript weather_payload [KStr "main"; KStr "temp_max"] = Returned temp_max
    /\ subscript weather_payload [KStr "main"; KStr "temp_min"] = Returned temp_min
    /\ subscript weather_payload [KStr "main"; KStr "humidity"] = Returned humidity
    /\ subscript weather_payload [KStr "wind"; KStr "speed"] = Returned speed
    /\ subscript weather_payload [KStr "main"; KStr "feels_like"] = Returned feels_like
    /\ subscript weather_payload [KStr "main"; KStr "pressure"] = Returned pressure
    /\ Date weather_report_sample = "11/03/26"
    /\ Description weather_report_sample = description
    /\ Temperature weather_report_sample = str_scalar temp +:+ " F" +:+ degree_sign
    /\ High_Today weather_report_sample = str_scalar temp_max +:+ " F" +:+ degree_sign
    /\ Low_Today weather_report_sample = str_scalar temp_min +:+ " F" +:+ degree_sign
    /\ Humidity weather_report_sample = str_scalar humidity +:+ "%"
    /\ Wind_Speed weather_report_sample = str_scalar speed +:+ " mph"
    /\ Feels_Like weather_report_sample = str_scalar feels_like +:+ " F" +:+ degree_sign
    /\ Pressure weather_report_sample = str_scalar pressure +:+ " hPa".
Proof.
  apply (current_weather_report str_scalar "11/03/26" weather_payload
           weather_report_sample).
  vm_compute. reflexivity.
Defined.

(** ** [job_opportunities] and [get_record] *)

(** The statement that reads the number of results never raises. *)
Lemma search_results_caught soup :
  is_Returned
    (try_except
       (total_jobs ← text_strip (Soup.find soup "div" [("id", "searchCountPages")]);
        Returned (Str.join " " (last_two (Str.split total_jobs))))
       is_AttributeError (Returned EmptyString)).
Proof.
  apply try_except_caught. intros e [H | (x & _ & [=])]%bind_Raised.
  by eapply text_strip_Raised.
Qed.

(** X7: the listings of [job_opportunities] are the records of all the
    cards of class [jobsearch-SerpJobCard], one per card and in document
    order, however many there are; and the handler returns them whenever
    [get_record] returns on every card, whether or not the page has the
    element that counts the results. *)
Theorem job_opportunities_all_cards today soup :
  (forall r,
     job_opportunities today soup = Returned r ->
     Forall2 (fun card record => get_record today card = Returned record)
       (Soup.find_all soup "div" (Soup.by_class "jobsearch-SerpJobCard"))
       (Top_10_Listings r)
     /\ length (Top_10_Listings r)
        = length (Soup.find_all soup "div" (Soup.by_class "jobsearch-SerpJobCard")))
  /\ (forall records,
        Forall2 (fun card record => get_record today card = Returned record)
          (Soup.find_all soup "div" (Soup.by_class "jobsearch-SerpJobCard"))
          records ->
        exists jobs,
          job_opportunities today soup
          = Returned {| Search_Results := jobs; Top_10_Listings := records |}).
Proof.
  rewrite job_opportunities_mapM. split.
  - intros r H. apply bind_Returned in H as (records & Hrecords & H).
    returned_in H. injection H as <-. simpl.
    apply mapM_Returned in Hrecords. split; [done|].
    symmetry. by eapply Forall2_length.
  - intros records Hrecords%mapM_Returned. rewrite Hrecords. simpl.
    destruct (search_results_caught soup) as [jobs ->]. by exists jobs.
Qed.

Lemma job_opportunities_all_cards_witness :
  (Forall2 (fun card record => get_record "2026-11-03" card = Returned record)
     (Soup.find_all (uncounted_page [job_card "Data Scientist" [salary_span]])
        "div" (Soup.by_class "jobsearch-SerpJobCard"))
     (Top_10_Listings {| Search_Results := "";
        Top_10_Listings := [job_card_record "Data Scientist" "$100,000 a year"] |})
   /\ length (Top_10_Listings {| Search_Results := "";
        Top_10_Listings := [job_card_record "Data Scientist" "$100,000 a year"] |})
      = length (Soup.find_all
          (uncounted_page [job_card "Data Scientist" [salary_span]])
          "div" (Soup.by_class "jobsearch-SerpJobCard")))
  /\ exists jobs,
       job_opportunities "2026-11-03"
         (uncounted_page [job_card "Data Scientist" [salary_span]])
       = Returned {| Search_Results := jobs;
            Top_10_Listings := [job_card_record "Data Scientist" "$100,000 a year"] |}.
Proof.
  split.
  - apply (proj1 (job_opportunities_all_cards "2026-11-03"
                    (uncounted_page [job_card "Data Scientist" [salary_span]]))).
    vm_compute. reflexivity.
  - apply (proj2 (job_opportunities_all_cards "2026-11-03"
                    (uncounted_page [job_card "Data Scientist" [salary_span]]))).
    apply mapM_Returned. vm_compute. reflexivity.
Defined.

(** X8: the summary of the search results is the empty string when the
    page has no [div] with id [searchCountPages], and otherwise the last
    two whitespace-separated words of that element's text (the one word, or
    the empty string, when the text has fewer). *)
Theorem job_opportunities_search_results today soup r :
  job_opportunities today soup = Returned r ->
  match Soup.find soup "div" [("id", "searchCountPages")] with
  | None => Search_Results r = EmptyString
  | Some count =>
      Search_Results r
      = Str.join " " (last_two (Str.split (Str.strip (Soup.text count))))
  end.
Proof.
  rewrite job_opportunities_mapM. intros H.
  apply bind_Returned in H as (records & _ & H).
  apply bind_Returned in H as (jobs & Hjobs & [= <-]). simpl.
  by destruct (Soup.find soup "div" [("id", "searchCountPages")]) as [count|];
    simpl in Hjobs; injection Hjobs as <-.
Qed.

Lemma job_opportunities_search_results_witness :
  match Soup.find (job_page [job_card "Data Scientist" []]) "div"
          [("id", "searchCountPages")] with
  | None => Search_Results {| Search_Results := "2,345 jobs";
        Top_10_Listings := [job_card_record "Data Scientist" ""] |} = EmptyString
  | Some count =>
      Search_Results {| Search_Results := "2,345 jobs";
        Top_10_Listings := [job_card_record "Data Scientist" ""] |}
      = Str.join " " (last_two (Str.split (Str.strip (Soup.text count))))
  end.
Proof.
  apply (job_opportunities_search_results "2026-11-03"
           (job_page [job_card "Data Scientist" []])).
  vm_compute. reflexivity.
Defined.

(** X9: in every record that [get_record] returns, the extract date is the
    date of the clock, the title is the [title] attribute of the anchor
    [card.h2.a] (or [None] when it has none), and the URL is the site
    origin followed by the [href] of that anchor, as it is. *)
Theorem get_record_anchor today card r :
  get_record today card = Returned r ->
  Extract_Date r = today
  /\ exists h2 atag href,
       Soup.find card "h2" [] = Some h2
       /\ Soup.find h2 "a" [] = Some atag
       /\ Soup.get atag "href" = Some (AttrStr href)
       /\ Job_Title r = Soup.get atag "title"
       /\ Job_Url r = "https://www.indeed.com" +:+ href.
Proof.
  unfold get_record. intros H.
  apply bind_Returned in H as (h2 & Hh2 & H).
  apply bind_Returned in H as (atag & Ha & H).
  do 5 returned_in H.
  apply bind_Returned in H as (job_url & Hurl & [= <-]). simpl.
  split; [done|]. exists h2, atag.
  destruct (Soup.find card "h2" []) as [h2'|]; [|done]. injection Hh2 as ->.
  destruct (Soup.find h2 "a" []) as [atag'|]; [|done]. injection Ha as ->.
  destruct (Soup.get atag "href") as [[href|]|] eqn:Hhref; try done.
  injection Hurl as <-. by exists href.
Qed.

Lemma get_record_anchor_witness :
  Extract_Date (job_card_record "Data Scientist" "") = "2026-11-03"
  /\ exists h2 atag href,
       Soup.find (job_card "Data Scientist" []) "h2" [] = Some h2
       /\ Soup.find h2 "a" [] = Some atag
       /\ Soup.get atag "href" = Some (AttrStr href)
       /\ Job_Title (job_card_record "Data Scientist" "") = Soup.get atag "title"
       /\ Job_Url (job_card_record "Data Scientist" "")
          = "https://www.indeed.com" +:+ href.
Proof.
  apply (get_record_anchor "2026-11-03" (job_card "Data Scientist" [])).
  vm_compute. reflexivity.
Defined.

(** X10: a card that has all its elements but whose title anchor has no
    [href] makes [get_record] raise [TypeError] (a string plus [None]),
    with or without a salary; nothing catches it. *)
Theorem get_record_no_href today card h2 atag company loc summary date :
  Soup.find card "h2" [] = Some h2 ->
  Soup.find h2 "a" [] = Some atag ->
  Soup.find card "span" (Soup.by_class "company") = Some company ->
  Soup.find card "div" (Soup.by_class "recJobLoc") = Some loc ->
  Soup.find card "div" (Soup.by_class "summary") = Some summary ->
  Soup.find card "span" (Soup.by_class "date") = Some date ->
  Soup.get atag "href" = None ->
  get_record today card = Raised TypeError
  /\ forall soup,
       card ∈ Soup.find_all soup "div" (Soup.by_class "jobsearch-SerpJobCard") ->
       is_Raised (job_opportunities today soup).
Proof.
  intros Hh2 Ha Hc Hl Hs Hd Hhref.
  assert (get_record today card = Raised TypeError) as Hcard.
  { unfold get_record.
    rewrite Hh2. simpl. rewrite Ha. simpl. rewrite Hc. simpl.
    rewrite Hl. simpl. rewrite Hs. simpl. rewrite Hd. simpl. rewrite Hhref.
    by destruct (Soup.find card "span" (Soup.by_class "salarytext")). }
  split; [done|]. intros soup Hin. rewrite job_opportunities_mapM.
  destruct (mapM_elem_Raised (get_record today) _ _ Hin) as [e He];
    [by eexists|].
  exists e. by rewrite He.
Qed.

Lemma get_record_no_href_witness :
  get_record "2026-11-03" job_card_no_href = Raised TypeError
  /\ is_Raised (job_opportunities "2026-11-03"
                  (job_page [job_card "Data Scientist" []; job_card_no_href])).
Proof.
  pose proof (get_record_no_href "2026-11-03" job_card_no_href
                (Tag "h2" ∅ [bare_anchor]) bare_anchor
                company_span location_div summary_div date_span
                eq_refl eq_refl eq_refl eq_refl eq_refl eq_refl eq_refl) as [H1 H2].
  split; [exact H1|]. apply H2. vm_compute. set_solver.
Defined.

(** X11: when the card has a [span] of class [salarytext], the Salary field
    of the record is the text of the first one, stripped. *)
Theorem get_record_salary today card salary r :
  Soup.find card "span" (Soup.by_class "salarytext") = Some salary ->
  get_record today card = Returned r ->
  Salary r = Str.strip (Soup.text salary).
Proof.
  intros Hsalary H. unfold get_record in H. rewrite Hsalary in H. simpl in H.
  do 7 returned_in H. by injection H as <-.
Qed.

Lemma get_record_salary_witness :
  Salary (job_card_record "Data Scientist" "$100,000 a year")
  = Str.strip (Soup.text salary_span).
Proof.
  apply (get_record_salary "2026-11-03" (job_card "Data Scientist" [salary_span]));
    vm_compute; reflexivity.
Defined.

(** ** [get_forecast] *)

Lemma int_error s e : Str.int s = Raised e -> e = ValueError.
Proof.
  unfold Str.int.
  destruct s as [|c s]; simpl; [by intros [= <-]|].
  repeat match goal with
         | |- context [match ?b with _ => _ end] => destruct b
         end; congruence.
Qed.

Lemma cell_value_error temp e : cell_value temp = Raised e -> e = ValueError.
Proof. apply int_error. Qed.

(** X12: [get_forecast] raises nothing but [ValueError], and it raises
    exactly when one of the cells that it reads, the first twelve of each
    class, holds a text that is not an integer; cells past the twelfth
    are not read. *)
Theorem get_forecast_value_error soup :
  (forall e, get_forecast soup = Raised e -> e = ValueError)
  /\ (is_Raised (get_forecast soup) <->
      exists temp,
        temp ∈ (take 12 (Soup.find_all soup "td" (Soup.by_class "high text-right"))
                ++ take 12 (Soup.find_all soup "td" (Soup.by_class "low text-right")))%list
        /\ cell_value temp = Raised ValueError).
Proof.
  unfold get_forecast. rewrite !monthly_mapM.
  assert (forall cells e, mapM cell_value cells = Raised e ->
            e = ValueError
            /\ exists temp, temp ∈ cells /\ cell_value temp = Raised ValueError)
    as Hcells.
  { intros cells e (temp & Hin & He)%mapM_Raised.
    pose proof (cell_value_error _ _ He) as ->. split; [done | by exists temp]. }
  split.
  - intros e [H | (highs & _ & [H | (lows & _ & [=])]%bind_Raised)]%bind_Raised;
      by apply Hcells in H as [-> _].
  - split.
    + intros [e [H | (highs & _ & [H | (lows & _ & [=])]%bind_Raised)]%bind_Raised];
        apply Hcells in H as [_ (temp & Hin & He)]; exists temp;
        (split; [|done]); apply elem_of_app; [by left | by right].
    + intros (temp & [Hin | Hin]%elem_of_app & He).
      * destruct (mapM_elem_Raised cell_value _ _ Hin) as [e ->];
          [by eexists | by exists e].
      * destruct (mapM cell_value (take 12 (Soup.find_all soup "td"
                    (Soup.by_class "high text-right")))) as [highs|e];
          simpl; [|by exists e].
        destruct (mapM_elem_Raised cell_value _ _ Hin) as [e ->];
          [by eexists | by exists e].
Qed.

Lemma get_forecast_value_error_witness :
  is_Raised (get_forecast climate_page_gap).
Proof.
  apply (proj2 (get_forecast_value_error climate_page_gap)).
  exists (cell "high" "N/A"). split; [vm_compute; set_solver | reflexivity].
Defined.

(** ** [generate_climate_url] *)

Lemma generate_climate_url_unfold city state :
  generate_climate_url city state
  = "https://www.usclimatedata.com/climate/" +:+ clean_string city
      +:+ "/" +:+ clean_string state +:+ "/united-states/".
Proof. reflexivity. Qed.

Lemma lower_app s t : Str.lower (s +:+ t) = Str.lower s +:+ Str.lower t.
Proof.
  unfold Str.lower. induction s as [|c s IH]; simpl; [done | by rewrite IH].
Qed.

Lemma contains_app c s t :
  Str.contains c (s +:+ t) = Str.contains c s || Str.contains c t.
Proof.
  induction s as [|d s IH]; simpl; [done|]. by rewrite IH, orb_assoc.
Qed.

Lemma clean_string_lower s : clean_string (Str.lower s) = clean_string s.
Proof. rewrite !clean_string_spec. unfold normalize_spec. by rewrite lower_idem. Qed.

Lemma clean_string_strip s : clean_string (Str.strip s) = clean_string s.
Proof.
  rewrite !clean_string_spec. unfold normalize_spec.
  by rewrite lower_strip, strip_idem.
Qed.

(** X13: the URL that [generate_climate_url] builds never holds a space
    and never holds a capital letter: lowercasing it changes nothing. *)
Theorem generate_climate_url_lowercase city state :
  Str.contains " " (generate_climate_url city state) = false
  /\ Str.lower (generate_climate_url city state) = generate_climate_url city state.
Proof.
  rewrite generate_climate_url_unfold.
  destruct (clean_string_normalized city) as (Hlc & _ & Hsc).
  destruct (clean_string_normalized state) as (Hls & _ & Hss).
  split.
  - rewrite !contains_app, Hsc, Hss. reflexivity.
  - rewrite !lower_app, Hlc, Hls. reflexivity.
Qed.

(** X14: the URL does not depend on the case of the city and the state
    nor on the whitespace around them. *)
Theorem generate_climate_url_case_padding city state :
  generate_climate_url (Str.lower city) (Str.lower state)
    = generate_climate_url city state
  /\ generate_climate_url (Str.strip city) (Str.strip state)
    = generate_climate_url city state.
Proof.
  rewrite !generate_climate_url_unfold.
  by rewrite !clean_string_lower, !clean_string_strip.
Qed.

(** X15: a city that is empty or made of whitespace only is not refused:
    its segment of the URL is empty, so that the path has two slashes in a
    row. *)
Theorem generate_climate_url_blank_city city state :
  Str.strip city = EmptyString ->
  generate_climate_url city state
  = "https://www.usclimatedata.com/climate//" +:+ clean_string state
      +:+ "/united-states/".
Proof.
  intros H. rewrite generate_climate_url_unfold.
  assert (clean_string city = EmptyString) as ->; [|reflexivity].
  rewrite clean_string_spec. unfold normalize_spec.
  by rewrite <- lower_strip, H.
Qed.

Lemma generate_climate_url_blank_city_witness :
  generate_climate_url "   " "NY"
  = "https://www.usclimatedata.com/climate//" +:+ clean_string "NY"
      +:+ "/united-states/".
Proof. apply generate_climate_url_blank_city. reflexivity. Defined.

(** ** One failed lookup loses the whole response *)

Lemma rental_elements_paths response i elements :
  rental_elements response i = Returned elements ->
  forall ks, ks ∈ rental_paths -> is_Returned (subscript response (KInt i :: ks)).
Proof.
  unfold rental_elements, rental_paths. rewrite !try_except_subscript.
  intros H. do 13 returned_in H. intros ks Hks.
  repeat (apply elem_of_cons in Hks as [-> | Hks]);
    try (by apply elem_of_nil in Hks); by eexists.
Qed.

(** X16: no entry is skipped and no field is defaulted: when one of the
    paths that the loop reads is missing from one entry with an index
    below [limit], be it the [pet_policy] key, [rental_listing] raises and
    returns no listing at all. *)
Theorem rental_listing_one_failure response limit n ks :
  (Z.of_nat n < limit)%Z ->
  ks ∈ rental_paths ->
  is_Raised (subscript response (KInt (Z.of_nat n) :: ks)) ->
  is_Raised (rental_listing response limit).
Proof.
  intros Hn Hks Hraised.
  destruct (rental_listing response limit) as [rental_list|e] eqn:E;
    [|by exists e].
  destruct (lookup_lt_is_Some_2 rental_list n) as [elements Helements].
  { pose proof E as Hlen. rewrite rental_listing_mapM in Hlen.
    apply mapM_Returned, Forall2_length in Hlen.
    unfold range in Hlen. rewrite length_seqZ in Hlen. lia. }
  pose proof (rental_listing_lookup _ _ _ _ _ E Helements) as Hround.
  destruct (not_returned_and_raised
              (subscript response (KInt (Z.of_nat n) :: ks))); [|done].
  by eapply rental_elements_paths.
Qed.

Lemma rental_listing_one_failure_witness :
  is_Raised (rental_listing (JArr [listing JNull one_bed; unpoliced_listing]) 2).
Proof.
  apply (rental_listing_one_failure _ 2 1 [KStr "pet_policy"]).
  - lia.
  - unfold rental_paths. set_solver.
  - eexists. vm_compute. reflexivity.
Defined.

(** ** The text fields of a job record *)

Lemma text_strip_trimmed o v : text_strip o = Returned v -> Str.strip v = v.
Proof.
  unfold text_strip. destruct o as [n|]; simpl; [|done].
  intros [= <-]. apply strip_idem.
Qed.

(** X17: in every record that [get_record] returns, the company, the date
    of posting, the description and the salary have no whitespace at
    either end: stripping them again changes nothing. *)
Theorem get_record_trimmed today card r :
  get_record today card = Returned r ->
  Str.strip (Company r) = Company r
  /\ Str.strip (Date_Posted r) = Date_Posted r
  /\ Str.strip (Job_Description r) = Job_Description r
  /\ Str.strip (Salary r) = Salary r.
Proof.
  unfold get_record. intros H. do 8 returned_in H. injection H as <-. simpl.
  repeat split; try by eapply text_strip_trimmed.
  destruct (text_strip (Soup.find card "span" (Soup.by_class "salarytext")))
    as [salary|e] eqn:Hsalary; simpl in Hv5.
  - injection Hv5 as <-. by eapply text_strip_trimmed.
  - apply text_strip_Raised in Hsalary as ->. simpl in Hv5. by injection Hv5 as <-.
Qed.

Lemma get_record_trimmed_witness :
  Str.strip (Company (job_card_record "Data Scientist" "$100,000 a year"))
    = Company (job_card_record "Data Scientist" "$100,000 a year")
  /\ Str.strip (Date_Posted (job_card_record "Data Scientist" "$100,000 a year"))
    = Date_Posted (job_card_record "Data Scientist" "$100,000 a year")
  /\ Str.strip (Job_Description (job_card_record "Data Scientist" "$100,000 a year"))
    = Job_Description (job_card_record "Data Scientist" "$100,000 a year")
  /\ Str.strip (Salary (job_card_record "Data Scientist" "$100,000 a year"))
    = Salary (job_card_record "Data Scientist" "$100,000 a year").
Proof.
  apply (get_record_trimmed "2026-11-03" (job_card "Data Scientist" [salary_span])).
  vm_compute. reflexivity.
Defined.
